(** * The session orchestrator of [server/main.py]

    A shallow embedding of the control loop ([handle_websocket_data]),
    the settings fusion ([_update_acid_settings]) and the streaming loop
    ([generate]) of [class App], with the properties of the design
    document stated and settled against it. *)

From stdpp Require Import gmap strings list.
From Stdlib Require Import ZArith Lia.

Open Scope string_scope.
Open Scope list_scope.
Open Scope Z_scope.

(** ** Python values

    The values that travel through the loops: JSON scalars, number arrays
    ([binned_fft]) and decoded images.  The loops never compute with
    numbers (they only store and compare them), so numerals are carried as
    integers. *)

Definition Image := list Z.

Inductive pyval :=
| PNone
| PBool (b : bool)
| PNum (n : Z)
| PStr (s : string)
| PList (l : list Z)
| PImage (i : Image).

#[global] Instance pyval_eq_dec : EqDecision pyval.
Proof. solve_decision. Defined.

(** A Python [dict] with string keys; [==] on dicts is extensional, as is
    equality on [gmap]. *)
Abbreviation dict := (gmap string pyval).

(** [d.get(k)] *)
Definition dict_get (d : dict) (k : string) : pyval := default PNone (d !! k).

(** [if k in settings: f(settings[k])] *)
Definition on_key {A} (settings : dict) (k : string) (f : pyval → A → A) (a : A) : A :=
  match settings !! k with
  | Some v => f v a
  | None => a
  end.

(** A JSON object received on the control channel: its fields, and the
    [acid_settings] sub-object when it carries one. *)
Record json_obj := {
  fields : dict;
  acid_settings : option dict
}.

(** ** The image processors *)

(** Modelled from the spec: [modules.acid_processor.InputImageProcessor]
    is not part of the sources.  [main.py] uses it as the holder of the
    input-processing settings, each written by its own setter; "fields
    not mentioned in the update retain their previous value". *)
Record InputImageProcessor := {
  human_seg : pyval;
  resizing_factor_humanseg : pyval;
  blur : pyval;
  brightness : pyval;
  infrared_colorize : pyval
}.

Definition set_human_seg (v : pyval) (p : InputImageProcessor) :=
  {| human_seg := v; resizing_factor_humanseg := resizing_factor_humanseg p;
     blur := blur p; brightness := brightness p;
     infrared_colorize := infrared_colorize p |}.
Definition set_resizing_factor_humanseg (v : pyval) (p : InputImageProcessor) :=
  {| human_seg := human_seg p; resizing_factor_humanseg := v;
     blur := blur p; brightness := brightness p;
     infrared_colorize := infrared_colorize p |}.
Definition set_blur (v : pyval) (p : InputImageProcessor) :=
  {| human_seg := human_seg p; resizing_factor_humanseg := resizing_factor_humanseg p;
     blur := v; brightness := brightness p;
     infrared_colorize := infrared_colorize p |}.
Definition set_brightness (v : pyval) (p : InputImageProcessor) :=
  {| human_seg := human_seg p; resizing_factor_humanseg := resizing_factor_humanseg p;
     blur := blur p; brightness := v;
     infrared_colorize := infrared_colorize p |}.
Definition set_infrared_colorize (v : pyval) (p : InputImageProcessor) :=
  {| human_seg := human_seg p; resizing_factor_humanseg := resizing_factor_humanseg p;
     blur := blur p; brightness := brightness p;
     infrared_colorize := v |}.

(** Modelled from the spec: [modules.acid_processor.AcidProcessor] is not
    part of the sources.  It holds the overridable modulation fields (zoom
    factor, shift coordinates, strength values, colour-matching
    coefficient), each written by its own setter, and the feedback buffer:
    the last generated image, stored by [update]. *)
Record AcidProcessor := {
  acid_strength : pyval;
  coef_noise : pyval;
  acid_tracers : pyval;
  acid_strength_foreground : pyval;
  zoom_factor : pyval;
  x_shift : pyval;
  y_shift : pyval;
  do_acid_wobblers : pyval;
  color_matching : pyval;
  last_diffusion : option Image
}.

Definition set_acid_strength (v : pyval) (a : AcidProcessor) :=
  {| acid_strength := v; coef_noise := coef_noise a; acid_tracers := acid_tracers a;
     acid_strength_foreground := acid_strength_foreground a;
     zoom_factor := zoom_factor a; x_shift := x_shift a; y_shift := y_shift a;
     do_acid_wobblers := do_acid_wobblers a; color_matching := color_matching a;
     last_diffusion := last_diffusion a |}.
Definition set_coef_noise (v : pyval) (a : AcidProcessor) :=
  {| acid_strength := acid_strength a; coef_noise := v; acid_tracers := acid_tracers a;
     acid_strength_foreground := acid_strength_foreground a;
     zoom_factor := zoom_factor a; x_shift := x_shift a; y_shift := y_shift a;
     do_acid_wobblers := do_acid_wobblers a; color_matching := color_matching a;
     last_diffusion := last_diffusion a |}.
Definition set_acid_tracers (v : pyval) (a : AcidProcessor) :=
  {| acid_strength := acid_strength a; coef_noise := coef_noise a; acid_tracers := v;
     acid_strength_foreground := acid_strength_foreground a;
     zoom_factor := zoom_factor a; x_shift := x_shift a; y_shift := y_shift a;
     do_acid_wobblers := do_acid_wobblers a; color_matching := color_matching a;
     last_diffusion := last_diffusion a |}.
Definition set_acid_strength_foreground (v : pyval) (a : AcidProcessor) :=
  {| acid_strength := acid_strength a; coef_noise := coef_noise a;
     acid_tracers := acid_tracers a; acid_strength_foreground := v;
     zoom_factor := zoom_factor a; x_shift := x_shift a; y_shift := y_shift a;
     do_acid_wobblers := do_acid_wobblers a; color_matching := color_matching a;
     last_diffusion := last_diffusion a |}.
Definition set_zoom_factor (v : pyval) (a : AcidProcessor) :=
  {| acid_strength := acid_strength a; coef_noise := coef_noise a;
     acid_tracers := acid_tracers a;
     acid_strength_foreground := acid_strength_foreground a;
     zoom_factor := v; x_shift := x_shift a; y_shift := y_shift a;
     do_acid_wobblers := do_acid_wobblers a; color_matching := color_matching a;
     last_diffusion := last_diffusion a |}.
Definition set_x_shift (v : pyval) (a : AcidProcessor) :=
  {| acid_strength := acid_strength a; coef_noise := coef_noise a;
     acid_tracers := acid_tracers a;
     acid_strength_foreground := acid_strength_foreground a;
     zoom_factor := zoom_factor a; x_shift := v; y_shift := y_shift a;
     do_acid_wobblers := do_acid_wobblers a; color_matching := color_matching a;
     last_diffusion := last_diffusion a |}.
Definition set_y_shift (v : pyval) (a : AcidProcessor) :=
  {| acid_strength := acid_strength a; coef_noise := coef_noise a;
     acid_tracers := acid_tracers a;
     acid_strength_foreground := acid_strength_foreground a;
     zoom_factor := zoom_factor a; x_shift := x_shift a; y_shift := v;
     do_acid_wobblers := do_acid_wobblers a; color_matching := color_matching a;
     last_diffusion := last_diffusion a |}.
Definition set_do_acid_wobblers (v : pyval) (a : AcidProcessor) :=
  {| acid_strength := acid_strength a; coef_noise := coef_noise a;
     acid_tracers := acid_tracers a;
     acid_strength_foreground := acid_strength_foreground a;
     zoom_factor := zoom_factor a; x_shift := x_shift a; y_shift := y_shift a;
     do_acid_wobblers := v; color_matching := color_matching a;
     last_diffusion := last_diffusion a |}.
Definition set_color_matching (v : pyval) (a : AcidProcessor) :=
  {| acid_strength := acid_strength a; coef_noise := coef_noise a;
     acid_tracers := acid_tracers a;
     acid_strength_foreground := acid_strength_foreground a;
     zoom_factor := zoom_factor a; x_shift := x_shift a; y_shift := y_shift a;
     do_acid_wobblers := do_acid_wobblers a; color_matching := v;
     last_diffusion := last_diffusion a |}.
(** [AcidProcessor.update(img_diffusion)] *)
Definition acid_update (img : Image) (a : AcidProcessor) :=
  {| acid_strength := acid_strength a; coef_noise := coef_noise a;
     acid_tracers := acid_tracers a;
     acid_strength_foreground := acid_strength_foreground a;
     zoom_factor := zoom_factor a; x_shift := x_shift a; y_shift := y_shift a;
     do_acid_wobblers := do_acid_wobblers a; color_matching := color_matching a;
     last_diffusion := Some img |}.

(** ** Collaborators

    The classes that [main.py] imports and drives but does not define:
    the test oscillators, the frequency zoom controller, the FFT analyzer,
    the pipeline, the safety checker and the image helpers.  The loops
    only rely on the methods listed here. *)

Class Collaborators := {
  ZoomOscillator : Type;
  ShiftOscillator : Type;
  FrequencyZoomController : Type;
  Stream_Analyzer : Type;
  Pipeline : Type;
  (* utils.test_oscillators.ZoomOscillator *)
  zo_enabled : ZoomOscillator → bool;
  zo_update : ZoomOscillator → ZoomOscillator * pyval;
  zo_set_enabled : pyval → ZoomOscillator → ZoomOscillator;
  (* utils.test_oscillators.ShiftOscillator *)
  so_enabled : ShiftOscillator → bool;
  so_update : ShiftOscillator → ShiftOscillator * (pyval * pyval);
  so_set_enabled : pyval → ShiftOscillator → ShiftOscillator;
  so_set_x_increment : pyval → ShiftOscillator → ShiftOscillator;
  so_set_y_increment : pyval → ShiftOscillator → ShiftOscillator;
  (* modules.acid_audio_controller.FrequencyZoomController *)
  fzc_enabled : FrequencyZoomController → bool;
  fzc_amplifying_factor : FrequencyZoomController → Z;
  process_frequency_bins :
    FrequencyZoomController → pyval → FrequencyZoomController * pyval;
  set_sensitivity :
    pyval → pyval → FrequencyZoomController → FrequencyZoomController;
  (* modules.fft.stream_analyzer.Stream_Analyzer: the binned_fft component *)
  get_audio_features : Stream_Analyzer → Stream_Analyzer * list Z;
  (* the pipeline: whether Info().input_mode is "image", the validation
     done by the InputParams constructor followed by .dict(), and predict *)
  input_mode_image : bool;
  InputParams : json_obj → option dict;
  predict : Pipeline → dict → Pipeline * option Image;
  (* pipelines.utils.safety_checker.SafetyChecker.__call__ *)
  safety_checker : option Image → option Image * bool;
  (* util.bytes_to_pil, util.pil_to_frame, util.is_firefox *)
  bytes_to_pil : list Z → option Image;
  pil_to_frame : Image → list Z;
  is_firefox : string → bool;
  (* rembg.remove *)
  remove : Image → Image;
  (* InputImageProcessor.process and AcidProcessor.process_input: the
     processed image with its mask, and the image handed to the pipeline *)
  ip_process : InputImageProcessor → Image → Image * option Image;
  process_input : AcidProcessor → Image → option Image → Image
}.


Section Orchestrator.
Context `{Collaborators}.

(** ** The modulation state

    The objects created once by [App.__init__] when [use_acid_processor]
    is set, and held on the [App] instance. *)

Record ModulationState := {
  input_processor : InputImageProcessor;
  acid_processor : AcidProcessor;
  fft_analyzer : Stream_Analyzer;
  frequency_zoom_controller : FrequencyZoomController;
  zoom_oscillator : ZoomOscillator;
  shift_oscillator : ShiftOscillator
}.

Definition with_input_processor (f : InputImageProcessor → InputImageProcessor)
    (m : ModulationState) : ModulationState :=
  {| input_processor := f (input_processor m); acid_processor := acid_processor m;
     fft_analyzer := fft_analyzer m;
     frequency_zoom_controller := frequency_zoom_controller m;
     zoom_oscillator := zoom_oscillator m; shift_oscillator := shift_oscillator m |}.
Definition with_acid_processor (f : AcidProcessor → AcidProcessor)
    (m : ModulationState) : ModulationState :=
  {| input_processor := input_processor m; acid_processor := f (acid_processor m);
     fft_analyzer := fft_analyzer m;
     frequency_zoom_controller := frequency_zoom_controller m;
     zoom_oscillator := zoom_oscillator m; shift_oscillator := shift_oscillator m |}.
Definition with_fft_analyzer (f : Stream_Analyzer → Stream_Analyzer)
    (m : ModulationState) : ModulationState :=
  {| input_processor := input_processor m; acid_processor := acid_processor m;
     fft_analyzer := f (fft_analyzer m);
     frequency_zoom_controller := frequency_zoom_controller m;
     zoom_oscillator := zoom_oscillator m; shift_oscillator := shift_oscillator m |}.
Definition with_frequency_zoom_controller
    (f : FrequencyZoomController → FrequencyZoomController)
    (m : ModulationState) : ModulationState :=
  {| input_processor := input_processor m; acid_processor := acid_processor m;
     fft_analyzer := fft_analyzer m;
     frequency_zoom_controller := f (frequency_zoom_controller m);
     zoom_oscillator := zoom_oscillator m; shift_oscillator := shift_oscillator m |}.
Definition with_zoom_oscillator (f : ZoomOscillator → ZoomOscillator)
    (m : ModulationState) : ModulationState :=
  {| input_processor := input_processor m; acid_processor := acid_processor m;
     fft_analyzer := fft_analyzer m;
     frequency_zoom_controller := frequency_zoom_controller m;
     zoom_oscillator := f (zoom_oscillator m); shift_oscillator := shift_oscillator m |}.
Definition with_shift_oscillator (f : ShiftOscillator → ShiftOscillator)
    (m : ModulationState) : ModulationState :=
  {| input_processor := input_processor m; acid_processor := acid_processor m;
     fft_analyzer := fft_analyzer m;
     frequency_zoom_controller := frequency_zoom_controller m;
     zoom_oscillator := zoom_oscillator m; shift_oscillator := f (shift_oscillator m) |}.

(** The configuration read by the loops: [self.args.timeout], in the unit
    of the clock, [self.args.safety_checker], and the two flags [App.__init__] derives
    from the arguments.  It is fixed for the life of the process. *)
Record Config := {
  args_timeout : Z;
  args_safety_checker : bool;
  use_acid_processor : bool;
  use_background_removal : bool
}.

(** ** Oscillators and server-side audio: lines 189-215

    The part of a control-loop iteration that runs before the loop waits
    for the next message. *)
Definition apply_test_oscillations (cfg : Config) (m : ModulationState)
    : ModulationState :=
  if use_acid_processor cfg then
    let m1 :=
      if zo_enabled (zoom_oscillator m) then
        let '(zo, zoom_value) := zo_update (zoom_oscillator m) in
        with_acid_processor (set_zoom_factor zoom_value)
          (with_zoom_oscillator (λ _, zo) m)
      else m in
    let m2 :=
      if so_enabled (shift_oscillator m1) then
        let '(so, (x, y)) := so_update (shift_oscillator m1) in
        with_acid_processor (set_y_shift y)
          (with_acid_processor (set_x_shift x)
             (with_shift_oscillator (λ _, so) m1))
      else m1 in
    if fzc_enabled (frequency_zoom_controller m2) then
      let '(an, binned_fft) := get_audio_features (fft_analyzer m2) in
      let use_binned_fft :=
        PList (map (Z.mul (fzc_amplifying_factor (frequency_zoom_controller m2)))
                   binned_fft) in
      let '(c, zoom_value) :=
        process_frequency_bins (frequency_zoom_controller m2) use_binned_fft in
      with_acid_processor (set_zoom_factor zoom_value)
        (with_frequency_zoom_controller (λ _, c)
           (with_fft_analyzer (λ _, an) m2))
    else m2
  else m.

(** [k in settings] *)
Definition has_key (settings : dict) (k : string) : bool :=
  bool_decide (is_Some (settings !! k)).

(** ** [_update_acid_settings]: lines 349-405 *)
Definition _update_acid_settings (cfg : Config) (settings : dict)
    (m : ModulationState) : ModulationState :=
  if negb (use_acid_processor cfg) then m else
  (* Input processor settings *)
  let m := on_key settings "do_human_seg"
             (λ v, with_input_processor (set_human_seg v)) m in
  let m := on_key settings "resizing_factor"
             (λ v, with_input_processor (set_resizing_factor_humanseg v)) m in
  let m := on_key settings "do_blur"
             (λ v, with_input_processor (set_blur v)) m in
  let m := on_key settings "brightness"
             (λ v, with_input_processor (set_brightness v)) m in
  let m := on_key settings "do_infrared_colorize"
             (λ v, with_input_processor (set_infrared_colorize v)) m in
  (* Acid processor settings *)
  let m := on_key settings "acid_strength"
             (λ v, with_acid_processor (set_acid_strength v)) m in
  let m := on_key settings "coef_noise"
             (λ v, with_acid_processor (set_coef_noise v)) m in
  let m := on_key settings "do_acid_tracers"
             (λ v, with_acid_processor (set_acid_tracers v)) m in
  let m := on_key settings "acid_strength_foreground"
             (λ v, with_acid_processor (set_acid_strength_foreground v)) m in
  let m := if has_key settings "zoom_factor" && negb (has_key settings "binned_fft")
           then with_acid_processor
                  (set_zoom_factor (dict_get settings "zoom_factor")) m
           else m in
  let m := on_key settings "x_shift"
             (λ v, with_acid_processor (set_x_shift v)) m in
  let m := on_key settings "y_shift"
             (λ v, with_acid_processor (set_y_shift v)) m in
  let m := on_key settings "do_acid_wobblers"
             (λ v, with_acid_processor (set_do_acid_wobblers v)) m in
  let m := on_key settings "color_matching"
             (λ v, with_acid_processor (set_color_matching v)) m in
  (* Frequency zoom controller sensitivities *)
  let m := if has_key settings "low_bin_sensitivity"
              || has_key settings "high_bin_sensitivity"
           then with_frequency_zoom_controller
                  (set_sensitivity (dict_get settings "low_bin_sensitivity")
                                   (dict_get settings "high_bin_sensitivity")) m
           else m in
  (* Test oscillators *)
  let m := on_key settings "use_test_zoom"
             (λ v, with_zoom_oscillator (zo_set_enabled v)) m in
  let m := on_key settings "use_test_shift"
             (λ v, with_shift_oscillator (so_set_enabled v)) m in
  let m := on_key settings "test_x_shift_increment"
             (λ v, with_shift_oscillator (so_set_x_increment v)) m in
  let m := on_key settings "test_y_shift_increment"
             (λ v, with_shift_oscillator (so_set_y_increment v)) m in
  m.

(** ** Frequency bins sent by the client: lines 232-241 *)
Definition process_binned_fft (cfg : Config) (acid_settings : dict)
    (m : ModulationState) : ModulationState :=
  if has_key acid_settings "binned_fft" && use_acid_processor cfg
     && negb (zo_enabled (zoom_oscillator m)) then
    let binned_fft := dict_get acid_settings "binned_fft" in
    if decide (binned_fft = PNone) then m
    else
      let '(c, new_zoom) :=
        process_frequency_bins (frequency_zoom_controller m) binned_fft in
      with_acid_processor (set_zoom_factor new_zoom)
        (with_frequency_zoom_controller (λ _, c) m)
  else m.

(** ** Fusion of an update into the modulation state: lines 227-241

    Returns the new modulation state and the parameters with
    [acid_settings] popped. *)
Definition fuse (cfg : Config) (params : json_obj) (m : ModulationState)
    : ModulationState * json_obj :=
  match acid_settings params with
  | Some settings =>
      if use_acid_processor cfg then
        (process_binned_fft cfg settings (_update_acid_settings cfg settings m),
         {| fields := fields params; acid_settings := None |})
      else (m, params)
  | None => (m, params)
  end.

(** [_apply_acid_processing]: lines 407-429 *)
Definition _apply_acid_processing (m : ModulationState) (pil_image : Image) : Image :=
  let '(processed_img, mask) := ip_process (input_processor m) pil_image in
  process_input (acid_processor m) processed_img mask.

(** [_apply_background_removal]: lines 431-432 *)
Definition _apply_background_removal (pil_image : Image) : Image := remove pil_image.

(** ** Sessions and the connection manager *)

(** The status messages the server sends: [{"status": "timeout"}],
    [{"status": "wait"}] and [{"status": "send_frame"}]. *)
Inductive server_msg := status_timeout | status_wait | status_send_frame.

(** What the client puts on the socket: a JSON message, a binary payload,
    or the end of the connection. *)
Inductive ws_frame :=
| Text (j : json_obj)
| Binary (b : list Z)
| Close.

(** Modelled from the spec: [connection_manager.py] is not part of the
    sources.  Following sections 3 and 4.1 of the design, a session owns
    one nullable latest-parameters cell, overwritten and never queued.
    The frames the client has put on the socket wait in [inbox], each with
    the time at which it arrives. *)
Record UserSession := {
  inbox : list (Z * ws_frame);
  latest_data : option dict
}.

(** Everything the two loops read and write: the objects held on the
    [App] instance (the modulation state, the pipeline and the connection
    manager with its active sessions), the clock, in ticks of a 120th of a
    second, and the messages sent so far, each with its recipient and the
    time of sending. *)
Record State := {
  modulation : ModulationState;
  pipeline : Pipeline;
  conn_manager : gmap N UserSession;
  clock : Z;
  sent : list (N * Z * server_msg)
}.

Definition with_modulation (f : ModulationState → ModulationState) (s : State) :=
  {| modulation := f (modulation s); pipeline := pipeline s;
     conn_manager := conn_manager s; clock := clock s; sent := sent s |}.
Definition with_pipeline (f : Pipeline → Pipeline) (s : State) :=
  {| modulation := modulation s; pipeline := f (pipeline s);
     conn_manager := conn_manager s; clock := clock s; sent := sent s |}.
Definition with_conn_manager (f : gmap N UserSession → gmap N UserSession) (s : State) :=
  {| modulation := modulation s; pipeline := pipeline s;
     conn_manager := f (conn_manager s); clock := clock s; sent := sent s |}.
Definition with_clock (f : Z → Z) (s : State) :=
  {| modulation := modulation s; pipeline := pipeline s;
     conn_manager := conn_manager s; clock := f (clock s); sent := sent s |}.
Definition with_sent (f : list (N * Z * server_msg) → list (N * Z * server_msg))
    (s : State) :=
  {| modulation := modulation s; pipeline := pipeline s;
     conn_manager := conn_manager s; clock := clock s; sent := f (sent s) |}.

(** ** The monad of the two loops

    A coroutine body either produces a value, suspends for good on a
    receive that no frame will ever satisfy, or raises. *)

Inductive exn :=
| KeyError
| AttributeError
| ValidationError
| DecodeError
| WebSocketDisconnect.

Inductive Res (A : Type) :=
| Ok (a : A) (s : State)
| Blocked (s : State)
| Raised (e : exn) (s : State).
Arguments Ok {A}.
Arguments Blocked {A}.
Arguments Raised {A}.

Definition M (A : Type) : Type := State → Res A.

#[global] Instance M_ret : MRet M := λ A a s, Ok a s.
#[global] Instance M_bind : MBind M := λ A B f m s,
  match m s with
  | Ok a s' => f a s'
  | Blocked s' => Blocked s'
  | Raised e s' => Raised e s'
  end.

Definition raise {A} (e : exn) : M A := λ s, Raised e s.
Definition modify (f : State → State) : M unit := λ s, Ok () (f s).
Definition get_modulation : M ModulationState := λ s, Ok (modulation s) s.

(** [time.time()] *)
Definition time_time : M Z := λ s, Ok (clock s) s.

(** Modelled from the spec: [ConnectionManager.check_user], the lookup of
    section 4.1. *)
Definition check_user (user_id : N) (s : State) : bool :=
  bool_decide (is_Some (conn_manager s !! user_id)).

(** Modelled from the spec: [ConnectionManager.send_json]; a message
    reaches the client only while its session is active. *)
Definition send_json (user_id : N) (msg : server_msg) : M unit := λ s,
  if check_user user_id s
  then Ok () (with_sent (λ l, l ++ [(user_id, clock s, msg)]) s)
  else Ok () s.

(** Modelled from the spec: [ConnectionManager.disconnect], the [retire]
    of section 4.1: it removes the session from the active set and is a
    no-op on a session already retired. *)
Definition disconnect (user_id : N) : M unit :=
  modify (with_conn_manager (delete user_id)).

(** Modelled from the spec: [ConnectionManager.update_data]; "writing
    replaces, never appends". *)
Definition update_data (user_id : N) (new_data : dict) : M unit :=
  modify (with_conn_manager
            (alter (λ u, {| inbox := inbox u; latest_data := Some new_data |})
                   user_id)).

(** Modelled from the spec: [ConnectionManager.get_latest_data]; it reads
    the cell, which may be empty, and leaves it as it is. *)
Definition get_latest_data (user_id : N) : M (option dict) := λ s,
  Ok (u ← conn_manager s !! user_id; latest_data u) s.

(** Modelled from the spec: the receive of [ConnectionManager.receive_json]
    and [receive_bytes].  It takes the next frame off the socket; the
    coroutine resumes at the arrival time of the frame when it had to wait
    for it, and stays suspended when no frame is to come. *)
Definition receive (user_id : N) : M ws_frame := λ s,
  match conn_manager s !! user_id with
  | None => Raised WebSocketDisconnect s
  | Some u =>
      match inbox u with
      | [] => Blocked s
      | (t, f) :: rest =>
          Ok f (with_clock (Z.max t)
                  (with_conn_manager
                     (<[user_id := {| inbox := rest; latest_data := latest_data u |}]>) s))
      end
  end.

Definition receive_json (user_id : N) : M json_obj :=
  f ← receive user_id;
  match f with
  | Text j => mret j
  | Binary _ => raise KeyError
  | Close => raise WebSocketDisconnect
  end.

Definition receive_bytes (user_id : N) : M (list Z) :=
  f ← receive user_id;
  match f with
  | Binary b => mret b
  | Text _ => raise KeyError
  | Close => raise WebSocketDisconnect
  end.

(** [d[k]] *)
Definition getitem (d : dict) (k : string) : M pyval :=
  match d !! k with
  | Some v => mret v
  | None => raise KeyError
  end.

Definition from_option {A} (e : exn) (o : option A) : M A :=
  match o with
  | Some a => mret a
  | None => raise e
  end.

(** ** The control loop: [handle_websocket_data], lines 157-266 *)

Inductive flow := Next | Stop.

(** Validation of the parameters, the image that comes with them, and
    the write to the latest-parameters cell: lines 243-262. *)
Definition submit_params (cfg : Config) (user_id : N) (params : json_obj) : M flow :=
  params ← from_option ValidationError (InputParams params);
  if input_mode_image then
    image_data ← receive_bytes user_id;
    if bool_decide (length image_data = 0%nat) then
      send_json user_id status_send_frame;;
      mret Next
    else
      image ← from_option DecodeError (bytes_to_pil image_data);
      m ← get_modulation;
      let image :=
        if use_acid_processor cfg then _apply_acid_processing m image else image in
      let image :=
        if use_background_removal cfg then _apply_background_removal image
        else image in
      update_data user_id (<["image" := PImage image]> params);;
      send_json user_id status_wait;;
      mret Next
  else
    update_data user_id params;;
    send_json user_id status_wait;;
    mret Next.

(** The handling of a ["next_frame"] announcement: lines 220-262. *)
Definition handle_next_frame (cfg : Config) (user_id : N) : M flow :=
  params ← receive_json user_id;
  m ← get_modulation;
  let '(m', params) := fuse cfg params m in
  modify (with_modulation (λ _, m'));;
  submit_params cfg user_id params.

(** What a pass does once the timeout check has let it through: lines
    189-262. *)
Definition receive_and_handle (cfg : Config) (user_id : N) : M flow :=
  modify (with_modulation (apply_test_oscillations cfg));;
  data ← receive_json user_id;
  status ← getitem (fields data) "status";
  if bool_decide (status = PStr "next_frame") then handle_next_frame cfg user_id
  else mret Next.

(** One pass through the body of [while True]: lines 164-262. *)
Definition control_iter (cfg : Config) (user_id : N) (last_time : Z) : M flow :=
  now ← time_time;
  if bool_decide (0 < args_timeout cfg)
     && bool_decide (args_timeout cfg < now - last_time) then
    send_json user_id status_timeout;;
    disconnect user_id;;
    mret Stop
  else receive_and_handle cfg user_id.

(** The frames still waiting on the socket of a user. *)
Definition pending (user_id : N) (s : State) : list (Z * ws_frame) :=
  match conn_manager s !! user_id with
  | Some u => inbox u
  | None => []
  end.

(** The state a computation leaves behind, however it ends. *)
Definition final_state {A} (r : Res A) : State :=
  match r with
  | Ok _ s | Blocked s | Raised _ s => s
  end.

(** The zoom a pass resolves to: the pass comes down to lines 243-262,
    where the image is processed, run with zoom factor [z], and whatever
    way it ends the acid processor is left with that zoom factor. *)
Definition resolved_zoom_is (cfg : Config) (user_id : N) (last_time : Z)
    (s : State) (z : pyval) : Prop :=
  (∃ s1 params',
     control_iter cfg user_id last_time s = submit_params cfg user_id params' s1 ∧
     zoom_factor (acid_processor (modulation s1)) = z) ∧
  zoom_factor
    (acid_processor (modulation (final_state (control_iter cfg user_id last_time s))))
  = z.

(** A relation that holds between the state a computation starts in and
    the state it leaves behind, however it ends; and one that holds when
    it ends normally. *)
Definition ensures {A} (R : State → State → Prop) (c : M A) : Prop :=
  ∀ s, R s (final_state (c s)).

Definition ok_ensures {A} (R : State → State → Prop) (c : M A) : Prop :=
  ∀ s a s', c s = Ok a s' → R s s'.

(** A computation that, when it ends normally, asks for another pass. *)
Definition returns_next (c : M flow) : Prop :=
  ∀ s fl s', c s = Ok fl s' → fl = Next.

(** A computation that never touches the modulation state. *)
Definition keeps_modulation {A} (c : M A) : Prop :=
  ensures (λ s s', modulation s' = modulation s) c.

(** Every message put on the wire between two states satisfies [P]. *)
Definition sent_grows (P : server_msg → Prop) (s s' : State) : Prop :=
  ∃ new, sent s' = sent s ++ new ∧ Forall (λ x, P x.2) new.

(** No frame has been put back on a user's socket. *)
Definition pending_shrinks (user_id : N) (s s' : State) : Prop :=
  (length (pending user_id s') ≤ length (pending user_id s))%nat.

(** The session of a user (socket and latest-parameters cell) is as it was. *)
Definition session_kept (user_id : N) (s s' : State) : Prop :=
  conn_manager s' !! user_id = conn_manager s !! user_id.

(** At least one frame has been taken off a user's socket. *)
Definition pending_consumed (user_id : N) (s s' : State) : Prop :=
  (length (pending user_id s') < length (pending user_id s))%nat.

(** How a run of the coroutine ends: it returned after the timeout,
    returned at once because the user is unknown, is suspended on a
    receive, or raised and the [except] clause disconnected the user. *)
Inductive exit :=
| TimedOut
| UserNotFound
| Suspended
| Crashed (e : exn)
| OutOfFuel.

Fixpoint control_loop (fuel : nat) (cfg : Config) (user_id : N) (last_time : Z)
    (s : State) : exit * State :=
  match fuel with
  | O => (OutOfFuel, s)
  | S fuel' =>
      match control_iter cfg user_id last_time s with
      | Ok Next s' => control_loop fuel' cfg user_id last_time s'
      | Ok Stop s' => (TimedOut, s')
      | Blocked s' => (Suspended, s')
      | Raised e s' => (Crashed e, with_conn_manager (delete user_id) s')
      end
  end.

(** Every pass that loops back has taken a frame off the socket, so one
    more pass than there are pending frames is all the loop can make. *)
Definition handle_websocket_data (cfg : Config) (user_id : N) (s : State)
    : exit * State :=
  if check_user user_id s then
    let last_time := clock s in
    control_loop (S (length (pending user_id s))) cfg user_id last_time s
  else (UserNotFound, s).

(** ** The streaming loop: [generate], lines 277-313 *)

(** [THROTTLE], line 36: a 120th of a second, which is the unit of the
    clock. *)
Definition THROTTLE : Z := 1.

(** [await asyncio.sleep(delay)] *)
Definition sleep (delay : Z) : M unit :=
  modify (with_clock (λ now, now + delay)).

(** What one pass of the generator did: the parameters it remembers, the
    parameter sets that [pipeline.predict] was called on, the frames it
    yielded, whether it slept for [THROTTLE], and the exception, raised
    after a frame had been yielded, that ended the generator. *)
Record tick := {
  t_last_params : dict;
  t_invoked : list dict;
  t_frames : list (list Z);
  t_slept : bool;
  t_raised : option exn
}.

(** [params.__dict__] *)
Definition getattr_dict (params : option dict) : M dict :=
  from_option AttributeError params.

(** Python's [==] on two dictionaries: the same keys, with values that are
    [==].  On the values of a parameter set it differs from identity in
    that a boolean equals the number it stands for ([True == 1],
    [False == 0]); [py_norm] maps every value to the representative of its
    class. *)
Definition py_norm (v : pyval) : pyval :=
  match v with
  | PBool b => PNum (if b then 1 else 0)
  | _ => v
  end.

Definition py_dict_eq (d1 d2 : dict) : bool :=
  bool_decide (py_norm <$> d1 = py_norm <$> d2).

(** [pipeline.predict(params)]: the image, and the record of the call. *)
Definition pipeline_predict (params : dict) : M (option Image * list dict) := λ s,
  let '(p, image) := predict (pipeline s) params in
  Ok (image, [params]) (with_pipeline (λ _, p) s).

(** The image a pass of the generator is left with once the safety
    checker, when it is enabled, has seen what the pipeline produced:
    lines 291-294. *)
Definition checked_image (cfg : Config) (produced : option Image) : option Image :=
  if args_safety_checker cfg then
    let '(image, has_nsfw_concept) := safety_checker produced in
    if has_nsfw_concept then None else image
  else produced.

(** Lines 308-311: the frame is yielded; then [request.headers["user-agent"]]
    is looked up, which raises [KeyError] when the request has no such
    header, and the frame is yielded a second time unless the client is
    Firefox.  The headers are keyed by their lower-case names. *)
Definition yield_frame (headers : gmap string string) (frame : list Z)
    : list (list Z) * option exn :=
  match headers !! "user-agent" with
  | None => ([frame], Some KeyError)
  | Some user_agent =>
      (if is_firefox user_agent then [frame] else [frame; frame], None)
  end.

(** Lines 285-311: the pass from the comparison on. *)
Definition generate_step (cfg : Config) (headers : gmap string string)
    (last_params : dict) (params : option dict) : M tick :=
  d ← getattr_dict params;
  if py_dict_eq d last_params || bool_decide (params = None) then
    sleep THROTTLE;;
    mret {| t_last_params := last_params; t_invoked := [];
            t_frames := []; t_slept := true; t_raised := None |}
  else
    '(produced, invoked) ← pipeline_predict d;
    match checked_image cfg produced with
    | None =>
        mret {| t_last_params := d; t_invoked := invoked;
                t_frames := []; t_slept := false; t_raised := None |}
    | Some image =>
        (if use_acid_processor cfg
         then modify (with_modulation (with_acid_processor (acid_update image)))
         else mret ());;
        let '(frames, raised) := yield_frame headers (pil_to_frame image) in
        mret {| t_last_params := d; t_invoked := invoked;
                t_frames := frames; t_slept := false; t_raised := raised |}
    end.

(** One pass of [while True], lines 280-313; [headers] are those of the
    request that opened the stream. *)
Definition generate_iter (cfg : Config) (user_id : N)
    (headers : gmap string string) (last_params : dict) : M tick :=
  send_json user_id status_send_frame;;
  params ← get_latest_data user_id;
  generate_step cfg headers last_params params.

(** The body of [while True] run for a number of passes with nothing else
    scheduled in between: the frames yielded, the parameter sets invoked,
    and the state it stops in, or the exception that ended it. *)
Fixpoint generate_loop (fuel : nat) (cfg : Config) (user_id : N)
    (headers : gmap string string) (last_params : dict) (s : State)
    : list (list Z) * list dict * option exn * State :=
  match fuel with
  | O => ([], [], None, s)
  | S fuel' =>
      match generate_iter cfg user_id headers last_params s with
      | Ok t s' =>
          match t_raised t with
          | Some e => (t_frames t, t_invoked t, Some e, s')
          | None =>
              let '(frames, invoked, e, s'') :=
                generate_loop fuel' cfg user_id headers (t_last_params t) s' in
              (t_frames t ++ frames, t_invoked t ++ invoked, e, s'')
          end
      | Blocked s' => ([], [], None, s')
      | Raised e s' => ([], [], Some e, s')
      end
  end.

(** [generate]: the loop entered with [last_params = SimpleNamespace()]. *)
Definition generate (fuel : nat) (cfg : Config) (user_id : N)
    (headers : gmap string string) (s : State)
    : list (list Z) * list dict * option exn * State :=
  generate_loop fuel cfg user_id headers ∅ s.

(** ** The websocket endpoint: lines 144-155 *)

(** Modelled from the spec: [ConnectionManager.connect], the [admit] of
    section 4.1.  It is refused when the number of active sessions has
    reached the maximum; otherwise it creates a fresh session, with an
    empty cell, on the socket that was opened. *)
Definition connect (user_id : N) (websocket : list (Z * ws_frame))
    (max_queue_size : nat) (s : State) : option State :=
  if bool_decide (max_queue_size ≤ size (conn_manager s))%nat then None
  else Some (with_conn_manager
               (<[user_id := {| inbox := websocket; latest_data := None |}]>) s).

(** How [websocket_endpoint] ends: the connection was refused
    ([ServerFullException], caught and logged), or the handler ran. *)
Inductive endpoint_exit :=
| ServerFull
| Handled (e : exit).

(** [websocket_endpoint]: connect, run the handler, and in the [finally]
    clause, reached when the handler has returned or the connection was
    refused, disconnect the user. *)
Definition websocket_endpoint (cfg : Config) (max_queue_size : nat) (user_id : N)
    (websocket : list (Z * ws_frame)) (s : State) : endpoint_exit * State :=
  match connect user_id websocket max_queue_size s with
  | None => (ServerFull, with_conn_manager (delete user_id) s)
  | Some s0 =>
      let '(e, s') := handle_websocket_data cfg user_id s0 in
      match e with
      | Suspended => (Handled e, s')
      | _ => (Handled e, with_conn_manager (delete user_id) s')
      end
  end.

(** [get_queue_size]: lines 268-271. *)
Definition get_queue_size (s : State) : nat := size (conn_manager s).

(** The keys that [_update_acid_settings] and the bins path look at. *)
Definition known_keys : list string :=
  ["do_human_seg"; "resizing_factor"; "do_blur"; "brightness";
   "do_infrared_colorize"; "acid_strength"; "coef_noise"; "do_acid_tracers";
   "acid_strength_foreground"; "zoom_factor"; "binned_fft"; "x_shift"; "y_shift";
   "do_acid_wobblers"; "color_matching"; "low_bin_sensitivity";
   "high_bin_sensitivity"; "use_test_zoom"; "use_test_shift";
   "test_x_shift_increment"; "test_y_shift_increment"].

(** The sessions and the messages sent are as they were. *)
Definition transport_kept (s s' : State) : Prop :=
  conn_manager s' = conn_manager s ∧ sent s' = sent s.

(** The feedback buffer of the acid processor is as it was. *)
Definition feedback_kept (s s' : State) : Prop :=
  last_diffusion (acid_processor (modulation s')) =
  last_diffusion (acid_processor (modulation s)).

(** A live session whose socket is empty. *)
Definition waiting (user_id : N) (s : State) : Prop :=
  ∃ u, conn_manager s !! user_id = Some u ∧ inbox u = [].

(** A property of the state in which a computation suspends. *)
Definition blocked_ensures {A} (P : State → Prop) (c : M A) : Prop :=
  ∀ s s', c s = Blocked s' → P s'.

(** The pipeline is as it was. *)
Definition pipeline_kept (s s' : State) : Prop := pipeline s' = pipeline s.

End Orchestrator.

Arguments Ok {_ _} a s.
Arguments Blocked {_ _} s.
Arguments Raised {_ _} e s.

(** ** A small set of collaborators

    Stand-ins on which the loops can be run: an oscillator that sweeps
    upwards by one, a controller whose zoom is the sum of the bins above
    its baseline, a pipeline that counts its invocations into the image it
    returns, a safety checker that flags the images starting with [13],
    and an acid processor that stamps the zoom factor on the image. *)
Module Demo.

Definition truthy (v : pyval) : bool :=
  match v with
  | PNone => false
  | PBool b => b
  | PNum n => negb (n =? 0)
  | PStr s => negb (String.eqb s EmptyString)
  | PList l => negb (bool_decide (l = []))
  | PImage _ => true
  end.

Definition bins_of (v : pyval) : list Z :=
  match v with PList l => l | _ => [] end.

Definition stamp (v : pyval) (img : Image) : Image :=
  match v with PNum z => z :: img | _ => img end.

#[local] Instance collaborators (image_mode : bool) : Collaborators := {|
  ZoomOscillator := bool * Z;
  ShiftOscillator := bool * Z;
  FrequencyZoomController := bool * Z;
  Stream_Analyzer := unit;
  Pipeline := Z;
  zo_enabled o := fst o;
  zo_update o := ((fst o, snd o + 1), PNum (snd o + 1));
  zo_set_enabled v o := (truthy v, snd o);
  so_enabled o := fst o;
  so_update o := ((fst o, snd o + 1), (PNum (snd o + 1), PNum (- (snd o + 1))));
  so_set_enabled v o := (truthy v, snd o);
  so_set_x_increment _ o := o;
  so_set_y_increment _ o := o;
  fzc_enabled c := fst c;
  fzc_amplifying_factor _ := 100000;
  process_frequency_bins c bins :=
    ((fst c, snd c + 1), PNum (foldr Z.add 0 (bins_of bins) - snd c));
  set_sensitivity _ _ c := c;
  get_audio_features a := (a, [1; 2; 3]);
  input_mode_image := image_mode;
  InputParams j := Some (fields j);
  predict p params := (p + 1, Some [p]);
  safety_checker img := (img, bool_decide (img = Some [13]));
  bytes_to_pil b := Some b;
  pil_to_frame img := img;
  is_firefox user_agent := bool_decide (user_agent = "Firefox");
  remove img := img;
  ip_process _ img := (img, None);
  process_input a img _ := stamp (zoom_factor a) img
|}.

Definition input_processor0 : InputImageProcessor :=
  {| human_seg := PBool true; resizing_factor_humanseg := PNum 1;
     blur := PBool false; brightness := PNum 1;
     infrared_colorize := PBool false |}.

Definition acid_processor0 : AcidProcessor :=
  {| acid_strength := PNum 11; coef_noise := PNum 15; acid_tracers := PBool false;
     acid_strength_foreground := PNum 11; zoom_factor := PNum 1;
     x_shift := PNum 0; y_shift := PNum 0; do_acid_wobblers := PBool false;
     color_matching := PNum 5; last_diffusion := None |}.

(** The modulation state after [App.__init__], with the zoom oscillator
    switched on or off. *)
Definition modulation0 (image_mode test_zoom : bool)
    : @ModulationState (collaborators image_mode) :=
  @Build_ModulationState (collaborators image_mode) input_processor0 acid_processor0
    tt (false, 0) (test_zoom, 5) (false, 0).
Definition cfg0 (timeout : Z) (safety : bool) : Config :=
  {| args_timeout := timeout; args_safety_checker := safety;
     use_acid_processor := true; use_background_removal := false |}.

Definition next_frame_msg : json_obj :=
  {| fields := {["status" := PStr "next_frame"]}; acid_settings := None |}.

Definition update_msg (settings : option dict) : json_obj :=
  {| fields := {["prompt" := PStr "a cat"]}; acid_settings := settings |}.

Definition next_frame : ws_frame := Text next_frame_msg.

Definition update (settings : option dict) : ws_frame := Text (update_msg settings).

(** A state with the given sessions connected at time 0. *)
Definition state0 (image_mode test_zoom : bool) (sessions : gmap N UserSession)
    : @State (collaborators image_mode) :=
  @Build_State (collaborators image_mode) (modulation0 image_mode test_zoom) 0
    sessions 0 [].
Definition ping : ws_frame :=
  Text {| fields := {["status" := PStr "ping"]}; acid_settings := None |}.

Definition session (frames : list (Z * ws_frame)) (latest : option dict) : UserSession :=
  {| inbox := frames; latest_data := latest |}.

(** An update that sets the zoom directly. *)
Definition direct_zoom : dict := {["zoom_factor" := PNum 2]}.

(** An update that sets the zoom directly and carries frequency bins. *)
Definition zoom_and_bins : dict :=
  <["binned_fft" := PList [3; 4]]> {["zoom_factor" := PNum 2]}.


(** One user, oscillator on, sending a direct zoom with an image. *)
Definition s_direct : @State (collaborators true) :=
  state0 true true
    {[ 1%N := session [(1, next_frame); (2, update (Some direct_zoom)); (3, Binary [9])]
                      None ]}.

(** One user, oscillator on, sending a direct zoom and bins. *)
Definition s_direct_bins : @State (collaborators true) :=
  state0 true true
    {[ 1%N := session [(1, next_frame); (2, update (Some zoom_and_bins)); (3, Binary [9])]
                      None ]}.

(** One user, oscillator off, sending a direct zoom and bins. *)
Definition s_bins : @State (collaborators true) :=
  state0 true false
    {[ 1%N := session [(1, next_frame); (2, update (Some zoom_and_bins)); (3, Binary [9])]
                      None ]}.


(** Two users: the first sets the zoom, the second sends plain parameters. *)
Definition s_two : @State (collaborators true) :=
  state0 true false
    (<[ 2%N := session [(4, next_frame); (5, update None); (6, Binary [9])] None ]>
       {[ 1%N := session [(1, next_frame); (2, update (Some direct_zoom)); (3, Binary [8])]
                         None ]}).

(** One user whose client never sends anything, and one whose client
    sends a single frame at time 1000. *)
Definition s_idle : @State (collaborators true) :=
  state0 true false {[ 1%N := session [] None ]}.

Definition s_late : @State (collaborators true) :=
  state0 true false {[ 1%N := session [(1000, ping)] None ]}.

(** A pass that starts at time 9 of a loop entered at time 0. *)
Definition s_overdue : @State (collaborators true) :=
  @Build_State (collaborators true) (modulation0 true false) 0
    {[ 1%N := session [] None ]} 9 [].

(** One user with a parameter set in the cell and nothing on the socket;
    the pipeline is about to produce image number [n]. *)
Definition s_stream (n : Z) (latest : option dict) : @State (collaborators true) :=
  @Build_State (collaborators true) (modulation0 true false) n
    {[ 1%N := session [] latest ]} 0 [].

Definition cat : dict := {["prompt" := PStr "a cat"]}.

(** The headers of a request made by Firefox, by another browser, and by
    a client that names no user agent. *)
Definition firefox : gmap string string := {["user-agent" := "Firefox"]}.
Definition chrome : gmap string string := {["user-agent" := "Chrome"]}.
Definition anonymous : gmap string string := ∅.

(** Two parameter sets that are not identical and that Python's [==]
    takes for equal. *)
Definition seed_true : dict := {["seed" := PBool true]}.
Definition seed_one : dict := {["seed" := PNum 1]}.

(** An update that carries bins and a direct zoom, and switches the zoom
    oscillator on. *)
Definition bins_and_toggle : dict :=
  <["use_test_zoom" := PBool true]> zoom_and_bins.

(** One user, oscillator off, sending that update. *)
Definition s_bins_toggle : @State (collaborators true) :=
  state0 true false
    {[ 1%N := session [(1, next_frame); (2, update (Some bins_and_toggle));
                       (3, Binary [9])] None ]}.

(** The same collaborators in image mode, with a pipeline whose schema
    requires a ["prompt"]. *)
#[local] Instance strict_collaborators : Collaborators := {|
  ZoomOscillator := bool * Z;
  ShiftOscillator := bool * Z;
  FrequencyZoomController := bool * Z;
  Stream_Analyzer := unit;
  Pipeline := Z;
  zo_enabled o := fst o;
  zo_update o := ((fst o, snd o + 1), PNum (snd o + 1));
  zo_set_enabled v o := (truthy v, snd o);
  so_enabled o := fst o;
  so_update o := ((fst o, snd o + 1), (PNum (snd o + 1), PNum (- (snd o + 1))));
  so_set_enabled v o := (truthy v, snd o);
  so_set_x_increment _ o := o;
  so_set_y_increment _ o := o;
  fzc_enabled c := fst c;
  fzc_amplifying_factor _ := 100000;
  process_frequency_bins c bins :=
    ((fst c, snd c + 1), PNum (foldr Z.add 0 (bins_of bins) - snd c));
  set_sensitivity _ _ c := c;
  get_audio_features a := (a, [1; 2; 3]);
  input_mode_image := true;
  InputParams j := if has_key (fields j) "prompt" then Some (fields j) else None;
  predict p params := (p + 1, Some [p]);
  safety_checker img := (img, bool_decide (img = Some [13]));
  bytes_to_pil b := Some b;
  pil_to_frame img := img;
  is_firefox user_agent := bool_decide (user_agent = "Firefox");
  remove img := img;
  ip_process _ img := (img, None);
  process_input a img _ := stamp (zoom_factor a) img
|}.

(** A configuration with acid processing switched off. *)
Definition cfg_plain : Config :=
  {| args_timeout := 0; args_safety_checker := false;
     use_acid_processor := false; use_background_removal := false |}.


(** A modulation state with both oscillators and the server-side
    frequency controller enabled. *)
Definition modulation_live : @ModulationState (collaborators true) :=
  @Build_ModulationState (collaborators true) input_processor0 acid_processor0
    tt (true, 0) (true, 5) (true, 2).

(** A misspelt key, a frozen zoom, a direct shift. *)
Definition misspelt : dict := {["zoom" := PNum 3]}.

Definition null_bins : dict := <["binned_fft" := PNone]> {["zoom_factor" := PNum 2]}.

Definition direct_shift : dict := {["x_shift" := PNum 7]}.

Definition s_null_bins : @State (collaborators true) :=
  state0 true false
    {[ 1%N := session [(1, next_frame); (2, update (Some null_bins)); (3, Binary [9])]
                      None ]}.

(** One user, both oscillators and the controller on, sending a direct
    horizontal shift. *)
Definition s_shift : @State (collaborators true) :=
  @Build_State (collaborators true) modulation_live 0
    {[ 1%N := session [(1, next_frame); (2, update (Some direct_shift)); (3, Binary [9])]
                      None ]} 0 [].

(** One user whose first message has no status. *)
Definition s_no_status : @State (collaborators true) :=
  state0 true false
    {[ 1%N := session [(1, Text (update_msg None)); (2, next_frame)] None ]}.

(** One user of a pipeline that takes no image, sending two updates. *)
Definition update2 : json_obj :=
  {| fields := {["prompt" := PStr "a dog"]}; acid_settings := None |}.

Definition s_two_updates : @State (collaborators false) :=
  state0 false false
    {[ 1%N := session [(1, next_frame); (2, update None);
                       (3, next_frame); (4, Text update2)] None ]}.

(** One user of the strict pipeline sending parameters without a
    prompt, with a direct zoom. *)
Definition no_prompt : json_obj := {| fields := ∅; acid_settings := Some direct_zoom |}.

Definition s_rejected : @State strict_collaborators :=
  @Build_State strict_collaborators
    (@Build_ModulationState strict_collaborators input_processor0 acid_processor0
       tt (false, 0) (false, 5) (false, 0))
    0 {[ 1%N := session [(1, next_frame); (2, Text no_prompt)] (Some cat) ]} 0 [].

(** One user of a pipeline that takes no image. *)
Definition s_text_mode : @State (collaborators false) :=
  state0 false false
    {[ 1%N := session [(1, next_frame); (2, update None); (3, ping)]
                      (Some {["prompt" := PStr "old"]}) ]}.

End Demo.

(** * Properties *)

Section Properties.
Context `{Collaborators}.
Implicit Types (cfg : Config) (m : ModulationState) (s : State) (settings : dict).

(** ** Running the monad *)

Lemma bind_ok {A B} (c : M A) (k : A → M B) s a s' :
  c s = Ok a s' → (c ≫= k) s = k a s'.
Proof. intros E. unfold mbind, M_bind. by rewrite E. Qed.

Lemma bind_blocked {A B} (c : M A) (k : A → M B) s s' :
  c s = Blocked s' → (c ≫= k) s = Blocked s'.
Proof. intros E. unfold mbind, M_bind. by rewrite E. Qed.

Lemma bind_raised {A B} (c : M A) (k : A → M B) s e s' :
  c s = Raised e s' → (c ≫= k) s = Raised e s'.
Proof. intros E. unfold mbind, M_bind. by rewrite E. Qed.

(** The state once the head frame of a user's socket has been taken. *)
Lemma receive_head user_id s u t f rest :
  conn_manager s !! user_id = Some u →
  inbox u = (t, f) :: rest →
  receive user_id s =
    Ok f (with_clock (Z.max t)
            (with_conn_manager
               (<[user_id := {| inbox := rest; latest_data := latest_data u |}]>) s)).
Proof. intros Hu Hi. unfold receive. by rewrite Hu, Hi. Qed.

Lemma receive_json_text user_id s u t j rest :
  conn_manager s !! user_id = Some u →
  inbox u = (t, Text j) :: rest →
  receive_json user_id s =
    Ok j (with_clock (Z.max t)
            (with_conn_manager
               (<[user_id := {| inbox := rest; latest_data := latest_data u |}]>) s)).
Proof.
  intros Hu Hi. unfold receive_json.
  by rewrite (bind_ok _ _ _ _ _ (receive_head _ _ _ _ _ _ Hu Hi)).
Qed.


(** ** A ["next_frame"] exchange up to the fusion

    When the timeout does not fire and the socket holds the announcement
    and the parameters, a pass of the loop comes down to [submit_params]
    run on the fused modulation state. *)
Lemma control_iter_next_frame cfg user_id last_time s u t1 data t2 params rest :
  bool_decide (0 < args_timeout cfg)
    && bool_decide (args_timeout cfg < clock s - last_time) = false →
  conn_manager s !! user_id = Some u →
  inbox u = (t1, Text data) :: (t2, Text params) :: rest →
  fields data !! "status" = Some (PStr "next_frame") →
  let fused := fuse cfg params (apply_test_oscillations cfg (modulation s)) in
  control_iter cfg user_id last_time s =
    submit_params cfg user_id (snd fused)
      {| modulation := fst fused;
         pipeline := pipeline s;
         conn_manager :=
           <[user_id := {| inbox := rest; latest_data := latest_data u |}]>
             (conn_manager s);
         clock := Z.max t2 (Z.max t1 (clock s));
         sent := sent s |}.
Proof.
  intros Ht Hu Hi Hst fused.
  unfold control_iter.
  rewrite (bind_ok time_time _ s (clock s) s eq_refl), Ht.
  unfold receive_and_handle.
  erewrite (bind_ok (modify _)); [|reflexivity].
  erewrite (bind_ok (receive_json _)); [|by eapply receive_json_text].
  unfold getitem at 1. rewrite Hst.
  erewrite (bind_ok (mret _)); [|reflexivity].
  rewrite bool_decide_eq_true_2 by done.
  unfold handle_next_frame.
  erewrite (bind_ok (receive_json _)); cycle 1.
  { eapply receive_json_text; simpl; [apply lookup_insert_eq|done]. }
  erewrite (bind_ok get_modulation); [|reflexivity].
  simpl. fold fused. destruct fused as [m' params'] eqn:Ef. simpl.
  erewrite (bind_ok (modify _)); [|reflexivity].
  unfold with_modulation, with_clock, with_conn_manager; simpl.
  by rewrite insert_insert_eq.
Qed.

(** ** What [_update_acid_settings] does to each object *)

Lemma on_key_elim {A B} (π : A → B) settings k (f : pyval → A → A) (g : pyval → B → B) a :
  (∀ v a, π (f v a) = g v (π a)) →
  π (on_key settings k f a) = on_key settings k g (π a).
Proof. intros Hf. unfold on_key. by destruct (settings !! k). Qed.

Lemma on_key_frame {A B} (π : A → B) settings k (f : pyval → A → A) a :
  (∀ v a, π (f v a) = π a) →
  π (on_key settings k f a) = π a.
Proof. intros Hf. unfold on_key. by destruct (settings !! k). Qed.

Lemma on_key_default {A} (π : A → pyval) settings k (f : pyval → A → A) a :
  (∀ v a, π (f v a) = v) →
  π (on_key settings k f a) = default (π a) (settings !! k).
Proof. intros Hf. unfold on_key. by destruct (settings !! k). Qed.

Lemma if_frame {A B} (π : A → B) (c : bool) (f : A → A) a :
  (∀ a, π (f a) = π a) → π (if c then f a else a) = π a.
Proof. intros Hf. by destruct c. Qed.

Lemma has_key_true settings k v : settings !! k = Some v → has_key settings k = true.
Proof. intros E. unfold has_key. apply bool_decide_eq_true_2. by rewrite E. Qed.

Lemma has_key_false settings k : settings !! k = None → has_key settings k = false.
Proof.
  intros E. unfold has_key. apply bool_decide_eq_false_2. rewrite E.
  by intros [? ?].
Qed.

Ltac frame_step :=
  first
    [ rewrite (on_key_frame input_processor) by done
    | rewrite (on_key_frame acid_processor) by done
    | rewrite (on_key_frame frequency_zoom_controller) by done
    | rewrite (on_key_frame zoom_oscillator) by done
    | rewrite (on_key_frame shift_oscillator) by done
    | rewrite (on_key_frame fft_analyzer) by done
    | rewrite (if_frame input_processor) by done
    | rewrite (if_frame acid_processor) by done
    | rewrite (if_frame frequency_zoom_controller) by done
    | rewrite (if_frame zoom_oscillator) by done
    | rewrite (if_frame shift_oscillator) by done
    | rewrite (if_frame fft_analyzer) by done ].

Lemma update_input_processor cfg settings m :
  use_acid_processor cfg = true →
  input_processor (_update_acid_settings cfg settings m) =
    on_key settings "do_infrared_colorize" set_infrared_colorize
      (on_key settings "brightness" set_brightness
         (on_key settings "do_blur" set_blur
            (on_key settings "resizing_factor" set_resizing_factor_humanseg
               (on_key settings "do_human_seg" set_human_seg
                  (input_processor m))))).
Proof.
  intros Hc. unfold _update_acid_settings. rewrite Hc. cbn [negb].
  repeat frame_step.
  by rewrite !(on_key_elim input_processor _ _ _ _ _ (λ _ _, eq_refl)).
Qed.

Lemma update_zoom_oscillator cfg settings m :
  use_acid_processor cfg = true →
  zoom_oscillator (_update_acid_settings cfg settings m) =
    on_key settings "use_test_zoom" zo_set_enabled (zoom_oscillator m).
Proof.
  intros Hc. unfold _update_acid_settings. rewrite Hc. cbn [negb].
  repeat frame_step.
  rewrite (on_key_elim zoom_oscillator _ _ _ _ _ (λ _ _, eq_refl)).
  by repeat frame_step.
Qed.


Lemma update_frequency_zoom_controller cfg settings m :
  use_acid_processor cfg = true →
  frequency_zoom_controller (_update_acid_settings cfg settings m) =
    if has_key settings "low_bin_sensitivity" || has_key settings "high_bin_sensitivity"
    then set_sensitivity (dict_get settings "low_bin_sensitivity")
           (dict_get settings "high_bin_sensitivity") (frequency_zoom_controller m)
    else frequency_zoom_controller m.
Proof.
  intros Hc. unfold _update_acid_settings. rewrite Hc. cbn [negb].
  repeat frame_step.
  destruct (has_key settings "low_bin_sensitivity" || has_key settings "high_bin_sensitivity");
    cbn [with_frequency_zoom_controller frequency_zoom_controller];
    by repeat frame_step.
Qed.

Lemma update_fft_analyzer cfg settings m :
  fft_analyzer (_update_acid_settings cfg settings m) = fft_analyzer m.
Proof.
  unfold _update_acid_settings. destruct (negb (use_acid_processor cfg)); [done|].
  by repeat frame_step.
Qed.

Lemma update_acid_processor cfg settings m :
  use_acid_processor cfg = true →
  acid_processor (_update_acid_settings cfg settings m) =
    on_key settings "color_matching" set_color_matching
      (on_key settings "do_acid_wobblers" set_do_acid_wobblers
         (on_key settings "y_shift" set_y_shift
            (on_key settings "x_shift" set_x_shift
               (let a :=
                  on_key settings "acid_strength_foreground" set_acid_strength_foreground
                    (on_key settings "do_acid_tracers" set_acid_tracers
                       (on_key settings "coef_noise" set_coef_noise
                          (on_key settings "acid_strength" set_acid_strength
                             (acid_processor m)))) in
                if has_key settings "zoom_factor" && negb (has_key settings "binned_fft")
                then set_zoom_factor (dict_get settings "zoom_factor") a
                else a)))).
Proof.
  intros Hc. unfold _update_acid_settings. rewrite Hc. cbn [negb].
  repeat frame_step.
  rewrite !(on_key_elim acid_processor _ _ _ _ _ (λ _ _, eq_refl)).
  destruct (has_key settings "zoom_factor" && negb (has_key settings "binned_fft"));
    cbn [with_acid_processor acid_processor]; cbn zeta;
    rewrite !(on_key_elim acid_processor _ _ _ _ _ (λ _ _, eq_refl));
    by repeat frame_step.
Qed.

(** The direct zoom value is written when the update has no [binned_fft]
    key, and only then. *)
Lemma update_zoom_direct cfg settings m z :
  use_acid_processor cfg = true →
  settings !! "zoom_factor" = Some z →
  settings !! "binned_fft" = None →
  zoom_factor (acid_processor (_update_acid_settings cfg settings m)) = z.
Proof.
  intros Hc Hz Hb. rewrite update_acid_processor by done.
  rewrite !(on_key_frame zoom_factor) by done.
  rewrite (has_key_true _ _ _ Hz), (has_key_false _ _ Hb). cbn.
  unfold dict_get. by rewrite Hz.
Qed.

Lemma update_zoom_kept cfg settings m :
  settings !! "zoom_factor" = None ∨ is_Some (settings !! "binned_fft") →
  zoom_factor (acid_processor (_update_acid_settings cfg settings m)) =
    zoom_factor (acid_processor m).
Proof.
  intros Hk. destruct (use_acid_processor cfg) eqn:Hc.
  - rewrite update_acid_processor by done.
    rewrite !(on_key_frame zoom_factor) by done.
    assert (has_key settings "zoom_factor" && negb (has_key settings "binned_fft") = false)
      as ->.
    { destruct Hk as [Hz|[b Hb]].
      - by rewrite (has_key_false _ _ Hz).
      - rewrite (has_key_true _ _ _ Hb). apply andb_false_r. }
    cbn zeta. by rewrite !(on_key_frame zoom_factor) by done.
  - unfold _update_acid_settings. by rewrite Hc.
Qed.

(** ** What the oscillators and the server-side audio leave behind *)

Lemma oscillations_zoom_oscillator_value cfg m :
  use_acid_processor cfg = true →
  zo_enabled (zoom_oscillator m) = true →
  fzc_enabled (frequency_zoom_controller m) = false →
  zoom_factor (acid_processor (apply_test_oscillations cfg m)) =
    (zo_update (zoom_oscillator m)).2.
Proof.
  intros Hc Hz Hf. unfold apply_test_oscillations. rewrite Hc, Hz.
  destruct (zo_update (zoom_oscillator m)) as [zo zoom_value]. cbn.
  destruct (so_enabled (shift_oscillator m)); cbn.
  - destruct (so_update (shift_oscillator m)) as [so [x y]]. cbn. by rewrite Hf.
  - by rewrite Hf.
Qed.

(** ** The part of a pass after the fusion leaves the modulation alone *)

Lemma keeps_ret {A} (a : A) : keeps_modulation (mret a).
Proof. by intros s. Qed.

Lemma keeps_raise {A} e : keeps_modulation (@raise _ A e).
Proof. by intros s. Qed.

Lemma keeps_bind {A B} (c : M A) (k : A → M B) :
  keeps_modulation c → (∀ a, keeps_modulation (k a)) → keeps_modulation (c ≫= k).
Proof.
  intros Hc Hk s. specialize (Hc s). unfold mbind, M_bind.
  destruct (c s) as [a s'| s' | e s']; cbn in *; [|done..].
  by rewrite Hk.
Qed.

Lemma keeps_from_option {A} e (o : option A) : keeps_modulation (from_option e o).
Proof. destruct o; [apply keeps_ret | apply keeps_raise]. Qed.

Lemma keeps_send_json user_id msg : keeps_modulation (send_json user_id msg).
Proof. intros s. unfold send_json. by destruct (check_user user_id s). Qed.

Lemma keeps_update_data user_id d : keeps_modulation (update_data user_id d).
Proof. by intros s. Qed.

Lemma keeps_get_modulation : keeps_modulation get_modulation.
Proof. by intros s. Qed.

Lemma keeps_receive user_id : keeps_modulation (receive user_id).
Proof.
  intros s. unfold receive.
  destruct (conn_manager s !! user_id) as [u|]; [|done].
  by destruct (inbox u) as [|[t f] rest].
Qed.

Lemma keeps_receive_bytes user_id : keeps_modulation (receive_bytes user_id).
Proof.
  apply keeps_bind; [apply keeps_receive|].
  intros [j|b|]; [apply keeps_raise | apply keeps_ret | apply keeps_raise].
Qed.

Lemma submit_params_modulation cfg user_id params :
  keeps_modulation (submit_params cfg user_id params).
Proof.
  unfold submit_params.
  apply keeps_bind; [apply keeps_from_option|]. intros d.
  destruct input_mode_image.
  - apply keeps_bind; [apply keeps_receive_bytes|]. intros b.
    case_bool_decide.
    + apply keeps_bind; [apply keeps_send_json|]. intros _. apply keeps_ret.
    + apply keeps_bind; [apply keeps_from_option|]. intros img.
      apply keeps_bind; [apply keeps_get_modulation|]. intros m.
      apply keeps_bind; [apply keeps_update_data|]. intros _.
      apply keeps_bind; [apply keeps_send_json|]. intros _. apply keeps_ret.
  - apply keeps_bind; [apply keeps_update_data|]. intros _.
    apply keeps_bind; [apply keeps_send_json|]. intros _. apply keeps_ret.
Qed.


Lemma dict_get_some settings k v : settings !! k = Some v → dict_get settings k = v.
Proof. intros E. unfold dict_get. by rewrite E. Qed.

Lemma process_binned_fft_zoom cfg settings m bins :
  use_acid_processor cfg = true →
  settings !! "binned_fft" = Some bins →
  bins ≠ PNone →
  zo_enabled (zoom_oscillator m) = false →
  zoom_factor (acid_processor (process_binned_fft cfg settings m)) =
    (process_frequency_bins (frequency_zoom_controller m) bins).2.
Proof.
  intros Hc Hb Hn Hz. unfold process_binned_fft.
  rewrite (has_key_true _ _ _ Hb), Hc, Hz, (dict_get_some _ _ _ Hb).
  cbn [andb negb]. rewrite decide_False by done.
  by destruct (process_frequency_bins _ _).
Qed.

Lemma process_binned_fft_skipped cfg settings m :
  zo_enabled (zoom_oscillator m) = true ∨ settings !! "binned_fft" = None →
  process_binned_fft cfg settings m = m.
Proof.
  intros Hs. unfold process_binned_fft.
  destruct Hs as [Hz|Hb].
  - rewrite Hz. cbn [negb]. by rewrite andb_false_r.
  - by rewrite (has_key_false _ _ Hb).
Qed.

(** ** Fusion precedence *)

Lemma resolved_zoom_intro cfg user_id last_time s u t1 data t2 params rest z :
  bool_decide (0 < args_timeout cfg)
    && bool_decide (args_timeout cfg < clock s - last_time) = false →
  conn_manager s !! user_id = Some u →
  inbox u = (t1, Text data) :: (t2, Text params) :: rest →
  fields data !! "status" = Some (PStr "next_frame") →
  zoom_factor
    (acid_processor (fuse cfg params (apply_test_oscillations cfg (modulation s))).1) = z →
  resolved_zoom_is cfg user_id last_time s z.
Proof.
  intros Ht Hu Hi Hst Hz.
  pose proof (control_iter_next_frame cfg user_id last_time s u t1 data t2 params rest
                Ht Hu Hi Hst) as Hrun. cbn zeta in Hrun.
  split.
  - eexists _, _. split; [exact Hrun|]. exact Hz.
  - rewrite Hrun, submit_params_modulation. exact Hz.
Qed.

(** C2. In a tick whose update carries frequency bins, and in which the
    zoom oscillator is disabled when the bins are looked at (that is, once
    the toggles of the same update have been applied), the zoom the tick
    resolves to is the output of the frequency zoom controller on those
    bins; a direct [zoom_factor] in the same update plays no part: the
    fused zoom is the same with that key removed. *)
Theorem C2_bins_override_direct_zoom
    cfg user_id last_time s u t1 data t2 params rest settings bins :
  bool_decide (0 < args_timeout cfg)
    && bool_decide (args_timeout cfg < clock s - last_time) = false →
  conn_manager s !! user_id = Some u →
  inbox u = (t1, Text data) :: (t2, Text params) :: rest →
  fields data !! "status" = Some (PStr "next_frame") →
  use_acid_processor cfg = true →
  acid_settings params = Some settings →
  settings !! "binned_fft" = Some bins →
  bins ≠ PNone →
  let m0 := apply_test_oscillations cfg (modulation s) in
  let m1 := _update_acid_settings cfg settings m0 in
  zo_enabled (zoom_oscillator m1) = false →
  let resolved := (process_frequency_bins (frequency_zoom_controller m1) bins).2 in
  resolved_zoom_is cfg user_id last_time s resolved ∧
  zoom_factor
    (acid_processor
       (fuse cfg {| fields := fields params;
                    acid_settings := Some (delete "zoom_factor" settings) |} m0).1)
    = resolved.
Proof.
  intros Ht Hu Hi Hst Hc Hs Hb Hn m0 m1 Hz resolved. split.
  - eapply resolved_zoom_intro; [done..|].
    unfold fuse. rewrite Hs, Hc. cbn [fst]. fold m0 m1.
    by apply process_binned_fft_zoom.
  - unfold fuse. cbn [acid_settings fields]. rewrite Hc. cbn [fst].
    assert (delete "zoom_factor" settings !! "binned_fft" = Some bins) as Hb'.
    { by rewrite lookup_delete_ne. }
    unfold m1 in Hz. rewrite update_zoom_oscillator in Hz by done.
    rewrite (process_binned_fft_zoom _ _ _ bins); [|done..|]; cycle 1.
    { rewrite update_zoom_oscillator by done.
      unfold on_key. rewrite lookup_delete_ne by done. exact Hz. }
    subst resolved m1. f_equal. f_equal.
    rewrite !update_frequency_zoom_controller by done.
    unfold has_key, dict_get. by rewrite !lookup_delete_ne by done.
Qed.

(** C1, as the code has it.  In a tick that starts with the zoom
    oscillator enabled and whose update supplies a direct [zoom_factor]:
    when the update has no [binned_fft] key, the tick resolves to the
    direct value, which is written after the oscillator's; when the update
    has a [binned_fft] key, the oscillator is still enabled once the
    update's toggles are applied and the server-side frequency controller
    is off, the direct value is dropped and the tick resolves to the value
    the oscillator computed. *)
Theorem C1_zoom_with_oscillator_enabled
    cfg user_id last_time s u t1 data t2 params rest settings z :
  bool_decide (0 < args_timeout cfg)
    && bool_decide (args_timeout cfg < clock s - last_time) = false →
  conn_manager s !! user_id = Some u →
  inbox u = (t1, Text data) :: (t2, Text params) :: rest →
  fields data !! "status" = Some (PStr "next_frame") →
  use_acid_processor cfg = true →
  zo_enabled (zoom_oscillator (modulation s)) = true →
  acid_settings params = Some settings →
  settings !! "zoom_factor" = Some z →
  let m0 := apply_test_oscillations cfg (modulation s) in
  let m1 := _update_acid_settings cfg settings m0 in
  (settings !! "binned_fft" = None →
   resolved_zoom_is cfg user_id last_time s z) ∧
  (is_Some (settings !! "binned_fft") →
   zo_enabled (zoom_oscillator m1) = true →
   fzc_enabled (frequency_zoom_controller (modulation s)) = false →
   resolved_zoom_is cfg user_id last_time s
     (zo_update (zoom_oscillator (modulation s))).2).
Proof.
  intros Ht Hu Hi Hst Hc Hz Hs Hd m0 m1. split.
  - intros Hb. eapply resolved_zoom_intro; [done..|].
    unfold fuse. rewrite Hs, Hc. cbn [fst].
    rewrite process_binned_fft_skipped by (by right).
    by apply update_zoom_direct.
  - intros Hb Hz1 Hf. eapply resolved_zoom_intro; [done..|].
    unfold fuse. rewrite Hs, Hc. cbn [fst]. fold m0 m1.
    rewrite process_binned_fft_skipped by (by left).
    unfold m1. rewrite update_zoom_kept by (by right).
    by apply oscillations_zoom_oscillator_value.
Qed.

(** ** An image-mode update with an empty image *)




Lemma oscillations_acid_frame {B} (π : AcidProcessor → B) cfg m :
  (∀ v a, π (set_zoom_factor v a) = π a) →
  (∀ v a, π (set_x_shift v a) = π a) →
  (∀ v a, π (set_y_shift v a) = π a) →
  π (acid_processor (apply_test_oscillations cfg m)) = π (acid_processor m).
Proof.
  intros Hz Hx Hy. unfold apply_test_oscillations.
  repeat first [ progress cbn | done | rewrite Hz | rewrite Hx | rewrite Hy
               | match goal with
                 | |- context [if ?b then _ else _] => destruct b
                 | |- context [let '(_, _) := ?p in _] => destruct p
                 end ].
Qed.

Lemma process_binned_fft_frame {B} (π : ModulationState → B) cfg settings m :
  (∀ v c m, π (with_acid_processor (set_zoom_factor v)
                 (with_frequency_zoom_controller (λ _, c) m)) = π m) →
  π (process_binned_fft cfg settings m) = π m.
Proof.
  intros Hf. unfold process_binned_fft.
  destruct (has_key settings "binned_fft" && use_acid_processor cfg
            && negb (zo_enabled (zoom_oscillator m))); [|done].
  case_decide; [done|].
  by destruct (process_frequency_bins _ _).
Qed.

Ltac acid_field π :=
  rewrite (process_binned_fft_frame (λ m, π (acid_processor m))) by done;
  rewrite update_acid_processor by done; cbn zeta;
  repeat first [ rewrite (on_key_frame π) by done | rewrite (if_frame π) by done ];
  rewrite (on_key_default π) by done;
  repeat first [ rewrite (on_key_frame π) by done | rewrite (if_frame π) by done ];
  try rewrite (oscillations_acid_frame π) by done.


(** ** Relations kept by every step of a computation *)

Lemma ensures_ret {A} (R : State → State → Prop) `{!Reflexive R} (a : A) :
  ensures R (mret a).
Proof. intros s. cbn. reflexivity. Qed.

Lemma ensures_raise {A} (R : State → State → Prop) `{!Reflexive R} e :
  ensures R (@raise _ A e).
Proof. intros s. cbn. reflexivity. Qed.

Lemma ensures_bind {A B} (R : State → State → Prop) `{!Transitive R}
    (c : M A) (k : A → M B) :
  ensures R c → (∀ a, ensures R (k a)) → ensures R (c ≫= k).
Proof.
  intros Hc Hk s. specialize (Hc s). unfold mbind, M_bind.
  destruct (c s) as [a s'| s' | e s']; cbn in *; [|done..].
  etrans; [exact Hc|]. apply Hk.
Qed.

Lemma ensures_from_option {A} (R : State → State → Prop) `{!Reflexive R} e (o : option A) :
  ensures R (from_option e o).
Proof. destruct o; [by apply ensures_ret | by apply ensures_raise]. Qed.

Lemma ensures_ok {A} (R : State → State → Prop) (c : M A) :
  ensures R c → ok_ensures R c.
Proof. intros Hc s a s' E. specialize (Hc s). by rewrite E in Hc. Qed.

Lemma ok_ensures_bind {A B} (R1 R2 R3 : State → State → Prop) (c : M A) (k : A → M B) :
  (∀ x y z, R1 x y → R2 y z → R3 x z) →
  ok_ensures R1 c → (∀ a, ok_ensures R2 (k a)) → ok_ensures R3 (c ≫= k).
Proof.
  intros HR Hc Hk s b s'. unfold mbind, M_bind.
  destruct (c s) as [a s1| s1 | e s1] eqn:E; [|done..].
  intros E'. eapply HR; [by eapply Hc | by eapply Hk].
Qed.

#[local] Instance sent_grows_refl P : Reflexive (sent_grows P).
Proof. intros s. exists []. by rewrite app_nil_r. Qed.

#[local] Instance sent_grows_trans P : Transitive (sent_grows P).
Proof.
  intros s1 s2 s3 (n1 & E1 & F1) (n2 & E2 & F2). exists (n1 ++ n2).
  split; [by rewrite E2, E1, app_assoc | by apply Forall_app].
Qed.

#[local] Instance pending_shrinks_refl user_id : Reflexive (pending_shrinks user_id).
Proof. intros s. unfold pending_shrinks. lia. Qed.

#[local] Instance pending_shrinks_trans user_id : Transitive (pending_shrinks user_id).
Proof. intros s1 s2 s3. unfold pending_shrinks. lia. Qed.

Lemma ensures_modify (R : State → State → Prop) (f : State → State) :
  (∀ s, R s (f s)) → ensures R (modify f).
Proof. intros Hf s. apply Hf. Qed.

Lemma ensures_get_modulation (R : State → State → Prop) `{!Reflexive R} :
  ensures R get_modulation.
Proof. intros s. cbn. reflexivity. Qed.

Ltac ens_done :=
  first [ apply ensures_ret; apply _ | apply ensures_raise; apply _
        | apply ensures_from_option; apply _
        | apply ensures_get_modulation; apply _ ].

(** *** Messages sent *)

Lemma sent_grows_same P s s' : sent s' = sent s → sent_grows P s s'.
Proof. intros E. exists []. by rewrite app_nil_r. Qed.

Lemma sends_send_json (P : server_msg → Prop) user_id msg :
  P msg → ensures (sent_grows P) (send_json user_id msg).
Proof.
  intros HP s. unfold send_json. destruct (check_user user_id s); cbn.
  - eexists [_]. split; [done|]. by constructor.
  - reflexivity.
Qed.

Lemma sends_receive P user_id : ensures (sent_grows P) (receive user_id).
Proof.
  intros s. unfold receive.
  destruct (conn_manager s !! user_id) as [u|]; [|reflexivity].
  destruct (inbox u) as [|[t f] rest]; [reflexivity|]. by apply sent_grows_same.
Qed.

Lemma sends_receive_json P user_id : ensures (sent_grows P) (receive_json user_id).
Proof.
  apply ensures_bind; [apply _ | apply sends_receive |].
  intros [j|b|]; [ens_done..].
Qed.

Lemma sends_receive_bytes P user_id : ensures (sent_grows P) (receive_bytes user_id).
Proof.
  apply ensures_bind; [apply _ | apply sends_receive |].
  intros [j|b|]; [ens_done | ens_done | ens_done].
Qed.

Lemma sends_update_data P user_id d : ensures (sent_grows P) (update_data user_id d).
Proof. apply ensures_modify. intros s. by apply sent_grows_same. Qed.

Lemma sends_submit_params cfg user_id params :
  ensures (sent_grows (λ msg, msg ≠ status_timeout)) (submit_params cfg user_id params).
Proof.
  unfold submit_params.
  apply ensures_bind; [apply _ | ens_done |]. intros d.
  destruct input_mode_image.
  - apply ensures_bind; [apply _ | apply sends_receive_bytes |]. intros b.
    case_bool_decide.
    + apply ensures_bind; [apply _ | by apply sends_send_json |]. intros _.
      ens_done.
    + apply ensures_bind; [apply _ | ens_done |]. intros img.
      apply ensures_bind; [apply _ | ens_done |]. intros m.
      apply ensures_bind; [apply _ | apply sends_update_data |]. intros _.
      apply ensures_bind; [apply _ | by apply sends_send_json |]. intros _.
      ens_done.
  - apply ensures_bind; [apply _ | apply sends_update_data |]. intros _.
    apply ensures_bind; [apply _ | by apply sends_send_json |]. intros _.
    ens_done.
Qed.

Lemma sends_handle_next_frame cfg user_id :
  ensures (sent_grows (λ msg, msg ≠ status_timeout)) (handle_next_frame cfg user_id).
Proof.
  unfold handle_next_frame.
  apply ensures_bind; [apply _ | apply sends_receive_json |]. intros params.
  apply ensures_bind; [apply _ | ens_done |]. intros m.
  destruct (fuse cfg params m) as [m' params'].
  apply ensures_bind; [apply _ | |].
  { apply ensures_modify. intros s. by apply sent_grows_same. }
  intros _. apply sends_submit_params.
Qed.

Lemma sends_receive_and_handle cfg user_id :
  ensures (sent_grows (λ msg, msg ≠ status_timeout)) (receive_and_handle cfg user_id).
Proof.
  apply ensures_bind; [apply _ | |].
  { apply ensures_modify. intros s. by apply sent_grows_same. }
  intros _.
  apply ensures_bind; [apply _ | apply sends_receive_json |]. intros data.
  apply ensures_bind; [apply _ | |].
  { unfold getitem. destruct (fields data !! "status");
      [ens_done | ens_done]. }
  intros status. case_bool_decide;
    [apply sends_handle_next_frame | ens_done].
Qed.

(** *** Passes that loop back *)

Lemma returns_next_bind {A} (c : M A) (k : A → M flow) :
  (∀ a, returns_next (k a)) → returns_next (c ≫= k).
Proof.
  intros Hk s fl s'. unfold mbind, M_bind.
  destruct (c s) as [a s1| s1 | e s1]; [|done..]. apply Hk.
Qed.

Lemma returns_next_ret : returns_next (mret Next).
Proof. intros s fl s' E. by injection E. Qed.

Lemma returns_next_submit_params cfg user_id params :
  returns_next (submit_params cfg user_id params).
Proof.
  unfold submit_params. apply returns_next_bind. intros d.
  destruct input_mode_image.
  - apply returns_next_bind. intros b. case_bool_decide;
      repeat (apply returns_next_bind; intros ?); apply returns_next_ret.
  - repeat (apply returns_next_bind; intros ?). apply returns_next_ret.
Qed.

Lemma returns_next_receive_and_handle cfg user_id :
  returns_next (receive_and_handle cfg user_id).
Proof.
  unfold receive_and_handle.
  do 3 (apply returns_next_bind; intros ?).
  case_bool_decide; [|apply returns_next_ret].
  unfold handle_next_frame. do 2 (apply returns_next_bind; intros ?).
  destruct (fuse _ _ _). apply returns_next_bind. intros _.
  apply returns_next_submit_params.
Qed.

(** *** The timeout check *)

Lemma control_iter_not_due cfg user_id last_time s :
  bool_decide (0 < args_timeout cfg)
    && bool_decide (args_timeout cfg < clock s - last_time) = false →
  control_iter cfg user_id last_time s = receive_and_handle cfg user_id s.
Proof.
  intros Ht. unfold control_iter.
  by rewrite (bind_ok time_time _ s (clock s) s eq_refl), Ht.
Qed.

Lemma control_iter_due cfg user_id last_time s :
  0 < args_timeout cfg →
  args_timeout cfg < clock s - last_time →
  control_iter cfg user_id last_time s =
    Ok Stop
      (with_conn_manager (delete user_id)
         (if check_user user_id s
          then with_sent (λ l, l ++ [(user_id, clock s, status_timeout)]) s
          else s)).
Proof.
  intros Hp Ht. unfold control_iter.
  rewrite (bind_ok time_time _ s (clock s) s eq_refl).
  rewrite !bool_decide_eq_true_2 by done. cbn [andb].
  unfold send_json, mbind, M_bind. by destruct (check_user user_id s).
Qed.

Lemma timeout_disabled cfg now last_time :
  args_timeout cfg ≤ 0 →
  bool_decide (0 < args_timeout cfg)
    && bool_decide (args_timeout cfg < now - last_time) = false.
Proof. intros Hle. rewrite bool_decide_eq_false_2; [done | lia]. Qed.

Lemma control_loop_no_timeout cfg user_id last_time fuel s :
  args_timeout cfg ≤ 0 →
  (control_loop fuel cfg user_id last_time s).1 ≠ TimedOut ∧
  sent_grows (λ msg, msg ≠ status_timeout) s
    (control_loop fuel cfg user_id last_time s).2.
Proof.
  intros Hle. revert s. induction fuel as [|fuel IH]; intros s; cbn.
  { split; [done | reflexivity]. }
  rewrite control_iter_not_due by by apply timeout_disabled.
  pose proof (sends_receive_and_handle cfg user_id s) as Hs.
  pose proof (returns_next_receive_and_handle cfg user_id s) as Hn.
  destruct (receive_and_handle cfg user_id s) as [fl s'| s' | e s']; cbn in Hs.
  - rewrite (Hn fl s' eq_refl). destruct (IH s') as [IH1 IH2].
    split; [done|]. by etrans.
  - done.
  - split; [done|]. etrans; [exact Hs|]. by apply sent_grows_same.
Qed.

(** C10. With a timeout that is zero or negative the inactivity check
    never fires, whatever the arrival times of the frames and the clock:
    no pass of the loop takes the timeout exit, the coroutine never
    returns through it, and none of the messages sent while it runs is
    [status_timeout]. *)
Theorem C10_no_timeout_when_disabled cfg user_id s :
  args_timeout cfg ≤ 0 →
  (∀ last_time s0 s', control_iter cfg user_id last_time s0 ≠ Ok Stop s') ∧
  (handle_websocket_data cfg user_id s).1 ≠ TimedOut ∧
  sent_grows (λ msg, msg ≠ status_timeout) s (handle_websocket_data cfg user_id s).2.
Proof.
  intros Hle. split.
  - intros last_time s0 s' E.
    rewrite control_iter_not_due in E by by apply timeout_disabled.
    by apply returns_next_receive_and_handle in E.
  - unfold handle_websocket_data. destruct (check_user user_id s).
    + by apply control_loop_no_timeout.
    + split; [done | reflexivity].
Qed.

(** *** Frames taken off the socket *)

Lemma pending_same user_id s s' :
  conn_manager s' = conn_manager s → pending_shrinks user_id s s'.
Proof. intros E. unfold pending_shrinks, pending. by rewrite E. Qed.

Lemma shrinks_receive user_id other :
  ensures (pending_shrinks user_id) (receive other).
Proof.
  intros s. unfold receive.
  destruct (conn_manager s !! other) as [u|] eqn:Hu; [|reflexivity].
  destruct (inbox u) as [|[t f] rest] eqn:Hi; [reflexivity|].
  unfold pending_shrinks, pending. cbn. rewrite lookup_insert.
  case_decide as Hd; [|done]. subst other. rewrite Hu, Hi. cbn. lia.
Qed.

Lemma consumed_receive user_id : ok_ensures (pending_consumed user_id) (receive user_id).
Proof.
  intros s f s'. unfold receive.
  destruct (conn_manager s !! user_id) as [u|] eqn:Hu; [|done].
  destruct (inbox u) as [|[t f'] rest] eqn:Hi; [done|].
  intros [= <- <-]. unfold pending_consumed, pending. cbn.
  rewrite lookup_insert_eq, Hu, Hi. cbn. lia.
Qed.

Lemma shrinks_send_json user_id other msg :
  ensures (pending_shrinks user_id) (send_json other msg).
Proof.
  intros s. unfold send_json. destruct (check_user other s); by apply pending_same.
Qed.

Lemma shrinks_update_data user_id other d :
  ensures (pending_shrinks user_id) (update_data other d).
Proof.
  intros s. unfold pending_shrinks, pending. cbn. rewrite lookup_alter.
  case_decide; [subst other|done]. by destruct (conn_manager s !! user_id).
Qed.

Lemma shrinks_receive_bytes user_id other :
  ensures (pending_shrinks user_id) (receive_bytes other).
Proof.
  apply ensures_bind; [apply _ | apply shrinks_receive |].
  intros [j|b|]; ens_done.
Qed.

Lemma shrinks_receive_json user_id other :
  ensures (pending_shrinks user_id) (receive_json other).
Proof.
  apply ensures_bind; [apply _ | apply shrinks_receive |].
  intros [j|b|]; ens_done.
Qed.

Lemma shrinks_submit_params cfg user_id other params :
  ensures (pending_shrinks user_id) (submit_params cfg other params).
Proof.
  unfold submit_params.
  apply ensures_bind; [apply _ | ens_done |]. intros d.
  destruct input_mode_image.
  - apply ensures_bind; [apply _ | apply shrinks_receive_bytes |]. intros b.
    case_bool_decide.
    + apply ensures_bind; [apply _ | apply shrinks_send_json |]. intros _. ens_done.
    + apply ensures_bind; [apply _ | ens_done |]. intros img.
      apply ensures_bind; [apply _ | ens_done |]. intros m.
      apply ensures_bind; [apply _ | apply shrinks_update_data |]. intros _.
      apply ensures_bind; [apply _ | apply shrinks_send_json |]. intros _. ens_done.
  - apply ensures_bind; [apply _ | apply shrinks_update_data |]. intros _.
    apply ensures_bind; [apply _ | apply shrinks_send_json |]. intros _. ens_done.
Qed.

Lemma shrinks_handle_next_frame cfg user_id other :
  ensures (pending_shrinks user_id) (handle_next_frame cfg other).
Proof.
  unfold handle_next_frame.
  apply ensures_bind; [apply _ | apply shrinks_receive_json |]. intros params.
  apply ensures_bind; [apply _ | ens_done |]. intros m.
  destruct (fuse cfg params m) as [m' params'].
  apply ensures_bind; [apply _ | |].
  { apply ensures_modify. intros s. by apply pending_same. }
  intros _. apply shrinks_submit_params.
Qed.

(** A pass of one user's loop takes frames off that user's socket only. *)
Lemma shrinks_receive_and_handle cfg user_id other :
  ensures (pending_shrinks user_id) (receive_and_handle cfg other).
Proof.
  unfold receive_and_handle.
  apply ensures_bind; [apply _ | |].
  { apply ensures_modify. intros s. by apply pending_same. }
  intros _.
  apply ensures_bind; [apply _ | apply shrinks_receive_json |]. intros data.
  apply ensures_bind; [apply _ | |].
  { unfold getitem. destruct (fields data !! "status"); ens_done. }
  intros status. case_bool_decide; [apply shrinks_handle_next_frame | ens_done].
Qed.

(** A pass that loops back has taken at least one frame. *)
Lemma consumed_receive_and_handle cfg user_id :
  ok_ensures (pending_consumed user_id) (receive_and_handle cfg user_id).
Proof.
  unfold receive_and_handle.
  eapply (ok_ensures_bind (pending_shrinks user_id) (pending_consumed user_id)).
  { unfold pending_shrinks, pending_consumed. lia. }
  { apply ensures_ok, ensures_modify. intros s. by apply pending_same. }
  intros _.
  eapply (ok_ensures_bind (pending_consumed user_id) (pending_shrinks user_id)).
  { unfold pending_shrinks, pending_consumed. lia. }
  { unfold receive_json.
    eapply (ok_ensures_bind (pending_consumed user_id) (pending_shrinks user_id)).
    - unfold pending_shrinks, pending_consumed. lia.
    - apply consumed_receive.
    - intros [j|b|]; apply ensures_ok; ens_done. }
  intros data. apply ensures_ok.
  apply ensures_bind; [apply _ | |].
  { unfold getitem. destruct (fields data !! "status"); ens_done. }
  intros status. case_bool_decide; [apply shrinks_handle_next_frame | ens_done].
Qed.

Lemma control_iter_consumes cfg user_id last_time s s' :
  control_iter cfg user_id last_time s = Ok Next s' →
  pending_consumed user_id s s'.
Proof.
  unfold control_iter. rewrite (bind_ok time_time _ s (clock s) s eq_refl).
  destruct (bool_decide (0 < args_timeout cfg)
            && bool_decide (args_timeout cfg < clock s - last_time)).
  - unfold send_json, mbind, M_bind. by destruct (check_user user_id s).
  - apply consumed_receive_and_handle.
Qed.

(** The loop ends, by itself or on a receive, within one pass more than
    there are frames waiting: the fuel that [handle_websocket_data] gives
    it is never used up. *)
Lemma control_loop_fuel cfg user_id last_time fuel s :
  (length (pending user_id s) < fuel)%nat →
  (control_loop fuel cfg user_id last_time s).1 ≠ OutOfFuel.
Proof.
  revert s. induction fuel as [|fuel IH]; intros s Hlt; [lia|]. cbn.
  destruct (control_iter cfg user_id last_time s) as [[|] s'| s' | e s'] eqn:E;
    [|done..].
  apply IH. apply control_iter_consumes in E. unfold pending_consumed in E. lia.
Qed.

Lemma handle_websocket_data_total cfg user_id s :
  (handle_websocket_data cfg user_id s).1 ≠ OutOfFuel.
Proof.
  unfold handle_websocket_data. destruct (check_user user_id s); [|done].
  apply control_loop_fuel. lia.
Qed.

Lemma receive_and_handle_idle cfg user_id s u :
  conn_manager s !! user_id = Some u →
  inbox u = [] →
  receive_and_handle cfg user_id s =
    Blocked (with_modulation (apply_test_oscillations cfg) s).
Proof.
  intros Hu Hi. unfold receive_and_handle.
  erewrite (bind_ok (modify _)); [|reflexivity].
  apply bind_blocked. unfold receive_json. apply bind_blocked.
  unfold receive. cbn. by rewrite Hu, Hi.
Qed.

(** C5, as the code has it.  With a positive timeout, a pass that starts
    more than the timeout after the loop was entered sends
    [status_timeout] to the user, removes the session and returns.  The
    check is made once, at the start of a pass, against the time of entry
    of the loop; the pass then waits for a frame.  So a pass that starts
    in time with no frame on the socket suspends without sending
    anything, and a session whose client never sends a frame is left
    suspended and connected, with no timeout message. *)
Theorem C5_timeout_checked_at_pass_start cfg user_id last_time s u :
  0 < args_timeout cfg →
  conn_manager s !! user_id = Some u →
  (args_timeout cfg < clock s - last_time →
   ∃ s', control_iter cfg user_id last_time s = Ok Stop s' ∧
         sent s' = sent s ++ [(user_id, clock s, status_timeout)] ∧
         conn_manager s' = delete user_id (conn_manager s)) ∧
  (clock s - last_time ≤ args_timeout cfg → inbox u = [] →
   ∃ s', control_iter cfg user_id last_time s = Blocked s' ∧
         sent s' = sent s ∧ conn_manager s' = conn_manager s) ∧
  (inbox u = [] →
   ∃ s', handle_websocket_data cfg user_id s = (Suspended, s') ∧
         sent s' = sent s ∧ conn_manager s' = conn_manager s).
Proof.
  intros Hp Hu. split_and!.
  - intros Ht. rewrite control_iter_due by done.
    unfold check_user. rewrite bool_decide_eq_true_2 by by rewrite Hu.
    by eexists.
  - intros Ht Hi. rewrite control_iter_not_due; cycle 1.
    { rewrite andb_comm, bool_decide_eq_false_2; [done | lia]. }
    rewrite (receive_and_handle_idle _ _ _ _ Hu Hi). by eexists.
  - intros Hi. unfold handle_websocket_data, check_user.
    rewrite bool_decide_eq_true_2 by by rewrite Hu.
    unfold pending. rewrite Hu, Hi. cbn [length control_loop].
    rewrite control_iter_not_due; cycle 1.
    { rewrite andb_comm, bool_decide_eq_false_2; [done | lia]. }
    rewrite (receive_and_handle_idle _ _ _ _ Hu Hi). by eexists.
Qed.

(** ** The streaming loop *)

Lemma get_latest_data_some user_id s u :
  conn_manager s !! user_id = Some u →
  get_latest_data user_id s = Ok (latest_data u) s.
Proof. intros Hu. unfold get_latest_data. by rewrite Hu. Qed.

(** Python's equality of parameter sets is an equivalence that contains
    identity. *)
Lemma py_dict_eq_refl d : py_dict_eq d d = true.
Proof. unfold py_dict_eq. by rewrite bool_decide_eq_true_2. Qed.

Lemma py_dict_eq_false_ne d1 d2 : py_dict_eq d1 d2 = false → d1 ≠ d2.
Proof. intros E ->. by rewrite py_dict_eq_refl in E. Qed.

Lemma py_dict_eq_trans d1 d2 d3 :
  py_dict_eq d1 d2 = true → py_dict_eq d2 d3 = true → py_dict_eq d1 d3 = true.
Proof.
  unfold py_dict_eq. rewrite !bool_decide_eq_true. intros E1 E2.
  by rewrite E1.
Qed.

Lemma py_dict_eq_left d1 d2 d3 :
  py_dict_eq d1 d2 = true → py_dict_eq d1 d3 = py_dict_eq d2 d3.
Proof.
  unfold py_dict_eq. rewrite bool_decide_eq_true. intros E.
  apply bool_decide_ext. by rewrite E.
Qed.

(** A pass starts by asking the client for a frame and reading the cell. *)
Lemma generate_iter_read cfg user_id headers last_params s u :
  conn_manager s !! user_id = Some u →
  generate_iter cfg user_id headers last_params s =
    generate_step cfg headers last_params (latest_data u)
      (with_sent (λ l, l ++ [(user_id, clock s, status_send_frame)]) s).
Proof.
  intros Hu. unfold generate_iter.
  erewrite (bind_ok (send_json _ _)); cycle 1.
  { unfold send_json, check_user. rewrite bool_decide_eq_true_2 by by rewrite Hu.
    reflexivity. }
  erewrite (bind_ok (get_latest_data _)); [done|].
  by apply get_latest_data_some.
Qed.

(** The cell holds a set equal to the one the loop processed last: the
    pass sleeps for [THROTTLE]. *)
Lemma generate_iter_same cfg user_id headers last_params s u p :
  conn_manager s !! user_id = Some u →
  latest_data u = Some p →
  py_dict_eq p last_params = true →
  generate_iter cfg user_id headers last_params s =
    Ok {| t_last_params := last_params; t_invoked := [];
          t_frames := []; t_slept := true; t_raised := None |}
       (with_clock (λ now, now + THROTTLE)
          (with_sent (λ l, l ++ [(user_id, clock s, status_send_frame)]) s)).
Proof.
  intros Hu Hd He. rewrite (generate_iter_read _ _ _ _ _ _ Hu).
  unfold generate_step. rewrite Hd. unfold getattr_dict, from_option.
  erewrite (bind_ok (mret _)); [|reflexivity].
  by rewrite He.
Qed.

(** The cell is empty: [params.__dict__] raises. *)
Lemma generate_iter_empty cfg user_id headers last_params s u :
  conn_manager s !! user_id = Some u →
  latest_data u = None →
  generate_iter cfg user_id headers last_params s =
    Raised AttributeError
      (with_sent (λ l, l ++ [(user_id, clock s, status_send_frame)]) s).
Proof.
  intros Hu Hd. rewrite (generate_iter_read _ _ _ _ _ _ Hu).
  unfold generate_step. by rewrite Hd.
Qed.

(** The cell holds a set that differs from the one the loop processed
    last: the pipeline is called on it, and the pass goes on with what the
    safety checker leaves of the result. *)
Lemma generate_iter_process cfg user_id headers last_params s u p pipe' produced :
  conn_manager s !! user_id = Some u →
  latest_data u = Some p →
  py_dict_eq p last_params = false →
  predict (pipeline s) p = (pipe', produced) →
  generate_iter cfg user_id headers last_params s =
    match checked_image cfg produced with
    | None =>
        Ok {| t_last_params := p; t_invoked := [p]; t_frames := [];
              t_slept := false; t_raised := None |}
           {| modulation := modulation s; pipeline := pipe';
              conn_manager := conn_manager s; clock := clock s;
              sent := sent s ++ [(user_id, clock s, status_send_frame)] |}
    | Some image =>
        Ok {| t_last_params := p; t_invoked := [p];
              t_frames := (yield_frame headers (pil_to_frame image)).1;
              t_slept := false;
              t_raised := (yield_frame headers (pil_to_frame image)).2 |}
           {| modulation :=
                if use_acid_processor cfg
                then with_acid_processor (acid_update image) (modulation s)
                else modulation s;
              pipeline := pipe';
              conn_manager := conn_manager s; clock := clock s;
              sent := sent s ++ [(user_id, clock s, status_send_frame)] |}
    end.
Proof.
  intros Hu Hd Hne Hp. rewrite (generate_iter_read _ _ _ _ _ _ Hu).
  unfold generate_step. rewrite Hd. unfold getattr_dict, from_option.
  erewrite (bind_ok (mret _)); [|reflexivity].
  rewrite Hne, bool_decide_eq_false_2 by done. cbn [orb].
  unfold pipeline_predict at 1, mbind at 1, M_bind at 1. cbn. rewrite Hp.
  destruct (checked_image cfg produced) as [image|]; [|done].
  destruct (yield_frame headers (pil_to_frame image)) as [frames raised].
  by destruct (use_acid_processor cfg).
Qed.

(** A pass on a set that differs from the one processed last calls the
    pipeline on it, once, and does not sleep. *)
Lemma generate_iter_new cfg user_id headers last_params s u p :
  conn_manager s !! user_id = Some u →
  latest_data u = Some p →
  py_dict_eq p last_params = false →
  ∃ t s', generate_iter cfg user_id headers last_params s = Ok t s' ∧
          t_last_params t = p ∧ t_invoked t = [p] ∧ t_slept t = false ∧
          pipeline s' = (predict (pipeline s) p).1 ∧
          conn_manager s' = conn_manager s.
Proof.
  intros Hu Hd Hne.
  destruct (predict (pipeline s) p) as [pipe' produced] eqn:Hp.
  rewrite (generate_iter_process _ _ _ _ _ _ _ _ _ Hu Hd Hne Hp).
  destruct (checked_image cfg produced); by eexists _, _.
Qed.

(** C3. Two consecutive reads of the cell that yield equal parameter sets
    make at most one call of the pipeline between them.  The second read
    never makes one: whatever happened to the rest of the state in
    between, its pass finds the set equal to the one the loop remembers,
    sleeps for [THROTTLE], yields nothing and leaves the pipeline as it
    was.  The first read makes exactly one, on the set it read, which
    moves the pipeline by one [predict], when that set differs from the
    one the loop processed last, and none, sleeping instead, when it is
    equal to it.  In particular, when the first pass does not end the
    generator, two passes run back to back call the pipeline as often as
    the first pass alone. *)
Theorem C3_equal_reads_invoke_at_most_once
    cfg user_id headers last_params s1 u1 p1 s2 u2 p2 :
  conn_manager s1 !! user_id = Some u1 →
  latest_data u1 = Some p1 →
  conn_manager s2 !! user_id = Some u2 →
  latest_data u2 = Some p2 →
  py_dict_eq p2 p1 = true →
  ∃ tick1 s1' tick2 s2',
    generate_iter cfg user_id headers last_params s1 = Ok tick1 s1' ∧
    generate_iter cfg user_id headers (t_last_params tick1) s2 = Ok tick2 s2' ∧
    (if py_dict_eq p1 last_params
     then t_invoked tick1 = [] ∧ pipeline s1' = pipeline s1 ∧
          t_slept tick1 = true
     else t_invoked tick1 = [p1] ∧ pipeline s1' = (predict (pipeline s1) p1).1 ∧
          t_slept tick1 = false) ∧
    t_invoked tick2 = [] ∧ t_frames tick2 = [] ∧ t_slept tick2 = true ∧
    t_raised tick2 = None ∧
    pipeline s2' = pipeline s2 ∧ clock s2' = clock s2 + THROTTLE ∧
    (t_raised tick1 = None →
     ∃ frames s',
       generate_loop 2 cfg user_id headers last_params s1 =
         (frames, t_invoked tick1, None, s') ∧
       pipeline s' = pipeline s1').
Proof.
  intros Hu1 Hd1 Hu2 Hd2 He.
  assert (∃ tick1 s1',
    generate_iter cfg user_id headers last_params s1 = Ok tick1 s1' ∧
    py_dict_eq p1 (t_last_params tick1) = true ∧
    conn_manager s1' = conn_manager s1 ∧
    (if py_dict_eq p1 last_params
     then t_invoked tick1 = [] ∧ pipeline s1' = pipeline s1 ∧
          t_slept tick1 = true
     else t_invoked tick1 = [p1] ∧ pipeline s1' = (predict (pipeline s1) p1).1 ∧
          t_slept tick1 = false))
    as (tick1 & s1' & E1 & Hl & Hc & H1).
  { destruct (py_dict_eq p1 last_params) eqn:Hp.
    - rewrite (generate_iter_same _ _ _ _ _ u1 p1) by done. by eexists _, _.
    - destruct (generate_iter_new cfg user_id headers last_params s1 u1 p1)
        as (t & s' & E & Hl & Hi & Hs & Hpipe & Hc); [done..|].
      exists t, s'. rewrite Hl. by rewrite py_dict_eq_refl. }
  assert (py_dict_eq p2 (t_last_params tick1) = true) as Hl2
    by by eapply py_dict_eq_trans.
  eexists tick1, s1', _, _. split; [exact E1|].
  split; [by apply (generate_iter_same _ _ _ _ _ u2 p2)|].
  split; [exact H1|]. split_and!; [done..|].
  intros Hr. cbn [generate_loop]. rewrite E1, Hr.
  rewrite (generate_iter_same _ _ _ _ _ u1 p1) by by rewrite ?Hc.
  cbn. rewrite !app_nil_r. by eexists _, _.
Qed.

(** C8. When the safety checker is enabled and flags the image the
    pipeline produced, the pass yields no frame, leaves the modulation
    state, and with it the feedback buffer of the acid processor, as it
    was, and leaves the sessions as they were; it does not raise, and the
    generator goes on with its next pass, remembering the parameters it
    has just processed. *)
Theorem C8_flagged_result_is_suppressed
    cfg user_id headers last_params s u p pipe' image image' :
  args_safety_checker cfg = true →
  conn_manager s !! user_id = Some u →
  latest_data u = Some p →
  py_dict_eq p last_params = false →
  predict (pipeline s) p = (pipe', image) →
  safety_checker image = (image', true) →
  ∃ s',
    generate_iter cfg user_id headers last_params s =
      Ok {| t_last_params := p; t_invoked := [p]; t_frames := [];
            t_slept := false; t_raised := None |} s' ∧
    modulation s' = modulation s ∧
    last_diffusion (acid_processor (modulation s')) =
      last_diffusion (acid_processor (modulation s)) ∧
    conn_manager s' = conn_manager s ∧
    pipeline s' = pipe' ∧
    ∀ fuel,
      generate_loop (S fuel) cfg user_id headers last_params s =
        let '(frames, invoked, e, s'') := generate_loop fuel cfg user_id headers p s' in
        (frames, p :: invoked, e, s'').
Proof.
  intros Hsafe Hu Hd Hne Hp Hflag.
  assert (checked_image cfg image = None) as Hi.
  { unfold checked_image. by rewrite Hsafe, Hflag. }
  pose proof (generate_iter_process cfg _ headers _ _ _ _ _ _ Hu Hd Hne Hp) as E.
  rewrite Hi in E. eexists. split; [exact E|].
  split_and!; [done..|].
  intros fuel. cbn [generate_loop]. rewrite E. cbn.
  by destruct (generate_loop fuel cfg user_id headers p _) as [[[frames invoked] e] s''].
Qed.

(** ** What sessions share and what they do not *)

#[local] Instance session_kept_refl other : Reflexive (session_kept other).
Proof. by intros s. Qed.

#[local] Instance session_kept_trans other : Transitive (session_kept other).
Proof. intros s1 s2 s3 E1 E2. unfold session_kept in *. by rewrite E2. Qed.

Lemma kept_same other s s' :
  conn_manager s' = conn_manager s → session_kept other s s'.
Proof. intros E. unfold session_kept. by rewrite E. Qed.

Lemma kept_receive user_id other :
  user_id ≠ other → ensures (session_kept other) (receive user_id).
Proof.
  intros Hne s. unfold receive.
  destruct (conn_manager s !! user_id) as [u|]; [|reflexivity].
  destruct (inbox u) as [|[t f] rest]; [reflexivity|].
  unfold session_kept. cbn. by rewrite lookup_insert_ne.
Qed.

Lemma kept_receive_json user_id other :
  user_id ≠ other → ensures (session_kept other) (receive_json user_id).
Proof.
  intros Hne. apply ensures_bind; [apply _ | by apply kept_receive |].
  intros [j|b|]; ens_done.
Qed.

Lemma kept_receive_bytes user_id other :
  user_id ≠ other → ensures (session_kept other) (receive_bytes user_id).
Proof.
  intros Hne. apply ensures_bind; [apply _ | by apply kept_receive |].
  intros [j|b|]; ens_done.
Qed.

Lemma kept_send_json user_id other msg :
  ensures (session_kept other) (send_json user_id msg).
Proof.
  intros s. unfold send_json. destruct (check_user user_id s); by apply kept_same.
Qed.

Lemma kept_update_data user_id other d :
  user_id ≠ other → ensures (session_kept other) (update_data user_id d).
Proof. intros Hne s. unfold session_kept. cbn. by rewrite lookup_alter_ne. Qed.

Lemma kept_disconnect user_id other :
  user_id ≠ other → ensures (session_kept other) (disconnect user_id).
Proof. intros Hne s. unfold session_kept. cbn. by rewrite lookup_delete_ne. Qed.

Lemma kept_submit_params cfg user_id other params :
  user_id ≠ other → ensures (session_kept other) (submit_params cfg user_id params).
Proof.
  intros Hne. unfold submit_params.
  apply ensures_bind; [apply _ | ens_done |]. intros d.
  destruct input_mode_image.
  - apply ensures_bind; [apply _ | by apply kept_receive_bytes |]. intros b.
    case_bool_decide.
    + apply ensures_bind; [apply _ | apply kept_send_json |]. intros _. ens_done.
    + apply ensures_bind; [apply _ | ens_done |]. intros img.
      apply ensures_bind; [apply _ | ens_done |]. intros m.
      apply ensures_bind; [apply _ | by apply kept_update_data |]. intros _.
      apply ensures_bind; [apply _ | apply kept_send_json |]. intros _. ens_done.
  - apply ensures_bind; [apply _ | by apply kept_update_data |]. intros _.
    apply ensures_bind; [apply _ | apply kept_send_json |]. intros _. ens_done.
Qed.

Lemma kept_control_iter cfg user_id other last_time :
  user_id ≠ other → ensures (session_kept other) (control_iter cfg user_id last_time).
Proof.
  intros Hne. unfold control_iter.
  apply ensures_bind; [apply _ | by intros s |]. intros now.
  destruct (bool_decide (0 < args_timeout cfg)
            && bool_decide (args_timeout cfg < now - last_time)).
  - apply ensures_bind; [apply _ | apply kept_send_json |]. intros _.
    apply ensures_bind; [apply _ | by apply kept_disconnect |]. intros _. ens_done.
  - unfold receive_and_handle.
    apply ensures_bind; [apply _ | |].
    { apply ensures_modify. intros s. by apply kept_same. }
    intros _.
    apply ensures_bind; [apply _ | by apply kept_receive_json |]. intros data.
    apply ensures_bind; [apply _ | |].
    { unfold getitem. destruct (fields data !! "status"); ens_done. }
    intros status. case_bool_decide; [|ens_done].
    unfold handle_next_frame.
    apply ensures_bind; [apply _ | by apply kept_receive_json |]. intros params.
    apply ensures_bind; [apply _ | ens_done |]. intros m.
    destruct (fuse cfg params m) as [m' params'].
    apply ensures_bind; [apply _ | |].
    { apply ensures_modify. intros s. by apply kept_same. }
    intros _. by apply kept_submit_params.
Qed.

Lemma oscillations_zoom_idle cfg m :
  zo_enabled (zoom_oscillator m) = false →
  fzc_enabled (frequency_zoom_controller m) = false →
  zoom_factor (acid_processor (apply_test_oscillations cfg m)) =
    zoom_factor (acid_processor m).
Proof.
  intros Hz Hf. unfold apply_test_oscillations.
  destruct (use_acid_processor cfg); [|done]. rewrite Hz.
  destruct (so_enabled (shift_oscillator m)).
  - destruct (so_update (shift_oscillator m)) as [so [x y]]. cbn. by rewrite Hf.
  - by rewrite Hf.
Qed.

(** C4, as the code has it.  The modulation state is one set of objects
    held on the [App] instance and used for every session.  What a pass of
    one user's control loop leaves in it is what a pass of another user's
    loop starts from: when the first resolves the zoom to [z], a following
    pass of the other user whose update carries no [acid_settings], with
    the zoom oscillator and the server-side frequency controller off,
    resolves to [z] as well.  What a session does own is its socket and
    its latest-parameters cell: a pass of one user's loop leaves the
    session of every other user as it was. *)
Theorem C4_modulation_state_is_shared
    cfg user_a user_b last_a last_b s z u t1 data t2 params rest :
  user_a ≠ user_b →
  resolved_zoom_is cfg user_a last_a s z →
  let s_a := final_state (control_iter cfg user_a last_a s) in
  bool_decide (0 < args_timeout cfg)
    && bool_decide (args_timeout cfg < clock s_a - last_b) = false →
  conn_manager s !! user_b = Some u →
  inbox u = (t1, Text data) :: (t2, Text params) :: rest →
  fields data !! "status" = Some (PStr "next_frame") →
  acid_settings params = None →
  zo_enabled (zoom_oscillator (modulation s_a)) = false →
  fzc_enabled (frequency_zoom_controller (modulation s_a)) = false →
  resolved_zoom_is cfg user_b last_b s_a z ∧
  conn_manager s_a !! user_b = conn_manager s !! user_b.
Proof.
  intros Hne [_ Hz] s_a Ht Hu Hi Hst Hs Hzo Hf.
  assert (conn_manager s_a !! user_b = conn_manager s !! user_b) as Hk.
  { by apply (kept_control_iter cfg user_a user_b last_a). }
  split; [|done].
  eapply resolved_zoom_intro; [done|by rewrite Hk|done..|].
  unfold fuse. rewrite Hs. cbn [fst].
  by rewrite oscillations_zoom_idle.
Qed.

(** * Further properties of the loops *)

(** ** With acid processing switched off *)

Lemma keeps_modify (f : State → State) :
  (∀ s, modulation (f s) = modulation s) → keeps_modulation (modify f).
Proof. intros Hf s. apply Hf. Qed.

Lemma keeps_receive_json user_id : keeps_modulation (receive_json user_id).
Proof.
  apply keeps_bind; [apply keeps_receive|].
  intros [j|b|]; [apply keeps_ret | apply keeps_raise | apply keeps_raise].
Qed.

Lemma oscillations_disabled cfg m :
  use_acid_processor cfg = false → apply_test_oscillations cfg m = m.
Proof. intros Hc. unfold apply_test_oscillations. by rewrite Hc. Qed.

Lemma fuse_disabled cfg params m :
  use_acid_processor cfg = false → fuse cfg params m = (m, params).
Proof. intros Hc. unfold fuse. rewrite Hc. by destruct (acid_settings params). Qed.

Lemma handle_next_frame_disabled cfg user_id :
  use_acid_processor cfg = false → keeps_modulation (handle_next_frame cfg user_id).
Proof.
  intros Hc s. unfold handle_next_frame, mbind at 1, M_bind at 1.
  pose proof (keeps_receive_json user_id s) as Hr.
  destruct (receive_json user_id s) as [params s1| s1 | e s1]; cbn in Hr; [|done..].
  unfold mbind at 1, M_bind at 1. cbn [get_modulation].
  rewrite fuse_disabled by done.
  unfold mbind at 1, M_bind at 1. cbn [modify].
  rewrite submit_params_modulation. cbn. exact Hr.
Qed.

(** X1. When [use_acid_processor] is off, neither loop ever changes the
    modulation state: whatever a pass of the control loop receives
    (settings, bins, toggles) and however it ends, and whatever a pass of
    the generator produces, the oscillators, the controller and the
    processors are left as they were. *)
Theorem acid_disabled_modulation_untouched cfg user_id :
  use_acid_processor cfg = false →
  (∀ last_time, keeps_modulation (control_iter cfg user_id last_time)) ∧
  (∀ headers last_params,
     keeps_modulation (generate_iter cfg user_id headers last_params)).
Proof.
  intros Hc. split.
  - intros last_time. unfold control_iter.
    apply keeps_bind; [by intros s|]. intros now.
    destruct (bool_decide (0 < args_timeout cfg)
              && bool_decide (args_timeout cfg < now - last_time)).
    + apply keeps_bind; [apply keeps_send_json|]. intros _.
      apply keeps_bind; [by apply keeps_modify|]. intros _. apply keeps_ret.
    + unfold receive_and_handle.
      apply keeps_bind.
      { apply keeps_modify. intros s. cbn. by apply oscillations_disabled. }
      intros _. apply keeps_bind; [apply keeps_receive_json|]. intros data.
      apply keeps_bind.
      { unfold getitem. destruct (fields data !! "status");
          [apply keeps_ret | apply keeps_raise]. }
      intros status. case_bool_decide;
        [by apply handle_next_frame_disabled | apply keeps_ret].
  - intros headers last_params. unfold generate_iter.
    apply keeps_bind; [apply keeps_send_json|]. intros _.
    apply keeps_bind; [by intros s|]. intros params. unfold generate_step.
    apply keeps_bind; [apply keeps_from_option|]. intros d.
    destruct (py_dict_eq d last_params || bool_decide (params = None)).
    { apply keeps_bind; [by apply keeps_modify|]. intros _. apply keeps_ret. }
    apply keeps_bind.
    { intros s. unfold pipeline_predict. by destruct (predict (pipeline s) d). }
    intros [produced invoked].
    destruct (checked_image cfg produced) as [img|]; [|apply keeps_ret].
    rewrite Hc. apply keeps_bind; [apply keeps_ret|]. intros _.
    destruct (yield_frame headers (pil_to_frame img)). apply keeps_ret.
Qed.

(** ** Updates that say nothing, or say it twice *)

Lemma on_key_absent {A} settings k (f : pyval → A → A) a :
  settings !! k = None → on_key settings k f a = a.
Proof. intros E. unfold on_key. by rewrite E. Qed.

(** X2. Keys of [acid_settings] that the code does not know are ignored:
    an update that carries none of the known keys (an empty object, or
    only misspelt or foreign keys) changes nothing in the modulation
    state and raises nothing; the sub-object is popped from the
    parameters all the same. *)
Theorem fuse_unknown_keys_ignored cfg params settings m :
  acid_settings params = Some settings →
  use_acid_processor cfg = true →
  Forall (λ k, settings !! k = None) known_keys →
  fuse cfg params m = (m, {| fields := fields params; acid_settings := None |}).
Proof.
  intros Hs Hc Hk. unfold fuse. rewrite Hs, Hc. f_equal.
  unfold known_keys in Hk. repeat (apply Forall_cons in Hk as [? Hk]).
  rewrite process_binned_fft_skipped by (by right).
  unfold _update_acid_settings. rewrite Hc. cbn [negb]. cbn zeta.
  rewrite !on_key_absent by assumption.
  by rewrite !has_key_false by assumption.
Qed.

(** ** The same settings sent twice *)

Lemma input_processor_ext (p q : InputImageProcessor) :
  human_seg p = human_seg q →
  resizing_factor_humanseg p = resizing_factor_humanseg q →
  blur p = blur q → brightness p = brightness q →
  infrared_colorize p = infrared_colorize q → p = q.
Proof. destruct p, q; cbn; congruence. Qed.

Lemma acid_processor_ext (a b : AcidProcessor) :
  acid_strength a = acid_strength b → coef_noise a = coef_noise b →
  acid_tracers a = acid_tracers b →
  acid_strength_foreground a = acid_strength_foreground b →
  zoom_factor a = zoom_factor b → x_shift a = x_shift b → y_shift a = y_shift b →
  do_acid_wobblers a = do_acid_wobblers b → color_matching a = color_matching b →
  last_diffusion a = last_diffusion b → a = b.
Proof. destruct a, b; cbn; congruence. Qed.

Ltac chain_field π :=
  cbn zeta;
  repeat first [ rewrite (on_key_frame π) by done | rewrite (if_frame π) by done
               | rewrite (on_key_default π) by done
               | progress cbn [zoom_factor set_zoom_factor]
               | match goal with
                 | |- context [if ?c then _ else _] => destruct c
                 end ];
  try done; unfold default; by repeat case_match.

Lemma input_chain_idempotent settings (p : InputImageProcessor) :
  let f p :=
    on_key settings "do_infrared_colorize" set_infrared_colorize
      (on_key settings "brightness" set_brightness
         (on_key settings "do_blur" set_blur
            (on_key settings "resizing_factor" set_resizing_factor_humanseg
               (on_key settings "do_human_seg" set_human_seg p)))) in
  f (f p) = f p.
Proof.
  apply input_processor_ext;
    [ chain_field human_seg | chain_field resizing_factor_humanseg
    | chain_field blur | chain_field brightness | chain_field infrared_colorize ].
Qed.

Lemma acid_chain_idempotent settings (a : AcidProcessor) :
  let f a :=
    on_key settings "color_matching" set_color_matching
      (on_key settings "do_acid_wobblers" set_do_acid_wobblers
         (on_key settings "y_shift" set_y_shift
            (on_key settings "x_shift" set_x_shift
               (let a :=
                  on_key settings "acid_strength_foreground" set_acid_strength_foreground
                    (on_key settings "do_acid_tracers" set_acid_tracers
                       (on_key settings "coef_noise" set_coef_noise
                          (on_key settings "acid_strength" set_acid_strength a))) in
                if has_key settings "zoom_factor" && negb (has_key settings "binned_fft")
                then set_zoom_factor (dict_get settings "zoom_factor") a
                else a)))) in
  f (f a) = f a.
Proof.
  apply acid_processor_ext;
    [ chain_field acid_strength | chain_field coef_noise | chain_field acid_tracers
    | chain_field acid_strength_foreground | chain_field zoom_factor
    | chain_field x_shift | chain_field y_shift | chain_field do_acid_wobblers
    | chain_field color_matching | chain_field last_diffusion ].
Qed.

(** X3. Applying the same settings a second time changes nothing in the
    two image processors: every field a setter writes holds after the
    second application what it held after the first. *)
Theorem update_acid_settings_idempotent cfg settings m :
  let once := _update_acid_settings cfg settings m in
  let twice := _update_acid_settings cfg settings once in
  input_processor twice = input_processor once ∧
  acid_processor twice = acid_processor once.
Proof.
  cbn zeta. destruct (use_acid_processor cfg) eqn:Hc.
  - rewrite !update_input_processor, !update_acid_processor by done.
    split; [apply input_chain_idempotent | apply acid_chain_idempotent].
  - unfold _update_acid_settings. by rewrite Hc.
Qed.

(** ** More on the fusion *)

Lemma control_iter_final_modulation cfg user_id last_time s u t1 data t2 params rest :
  bool_decide (0 < args_timeout cfg)
    && bool_decide (args_timeout cfg < clock s - last_time) = false →
  conn_manager s !! user_id = Some u →
  inbox u = (t1, Text data) :: (t2, Text params) :: rest →
  fields data !! "status" = Some (PStr "next_frame") →
  modulation (final_state (control_iter cfg user_id last_time s)) =
    (fuse cfg params (apply_test_oscillations cfg (modulation s))).1.
Proof.
  intros Ht Hu Hi Hst.
  rewrite (control_iter_next_frame cfg user_id last_time s u t1 data t2 params rest
             Ht Hu Hi Hst).
  cbn zeta. by rewrite submit_params_modulation.
Qed.

Lemma process_binned_fft_none cfg settings m :
  settings !! "binned_fft" = Some PNone → process_binned_fft cfg settings m = m.
Proof.
  intros Hb. unfold process_binned_fft. rewrite (dict_get_some _ _ _ Hb).
  rewrite decide_True by done.
  by destruct (has_key settings "binned_fft" && use_acid_processor cfg
               && negb (zo_enabled (zoom_oscillator m))).
Qed.

(** X4. An update whose [binned_fft] key is present with the value
    [None] freezes the zoom for that tick: the presence of the key keeps
    the direct [zoom_factor] from being written (line 375), the [None]
    keeps the controller from being consulted (line 235), so the tick
    resolves to the zoom the oscillators and the server-side audio left,
    and the controller is as the settings part of the update left it. *)
Theorem null_bins_freeze_zoom
    cfg user_id last_time s u t1 data t2 params rest settings :
  bool_decide (0 < args_timeout cfg)
    && bool_decide (args_timeout cfg < clock s - last_time) = false →
  conn_manager s !! user_id = Some u →
  inbox u = (t1, Text data) :: (t2, Text params) :: rest →
  fields data !! "status" = Some (PStr "next_frame") →
  use_acid_processor cfg = true →
  acid_settings params = Some settings →
  settings !! "binned_fft" = Some PNone →
  let m0 := apply_test_oscillations cfg (modulation s) in
  resolved_zoom_is cfg user_id last_time s (zoom_factor (acid_processor m0)) ∧
  modulation (final_state (control_iter cfg user_id last_time s)) =
    _update_acid_settings cfg settings m0.
Proof.
  intros Ht Hu Hi Hst Hc Hs Hb m0.
  assert ((fuse cfg params m0).1 = _update_acid_settings cfg settings m0) as Hf.
  { unfold fuse. rewrite Hs, Hc. cbn [fst]. by apply process_binned_fft_none. }
  split.
  - eapply resolved_zoom_intro; [done..|]. fold m0. rewrite Hf.
    apply update_zoom_kept. right. by eexists.
  - by rewrite (control_iter_final_modulation _ _ _ _ _ _ _ _ _ _ Ht Hu Hi Hst).
Qed.

Lemma oscillations_shift cfg m :
  use_acid_processor cfg = true →
  so_enabled (shift_oscillator m) = true →
  x_shift (acid_processor (apply_test_oscillations cfg m)) =
    (so_update (shift_oscillator m)).2.1 ∧
  y_shift (acid_processor (apply_test_oscillations cfg m)) =
    (so_update (shift_oscillator m)).2.2.
Proof.
  intros Hc Hso. unfold apply_test_oscillations. rewrite Hc.
  destruct (zo_enabled (zoom_oscillator m)).
  - destruct (zo_update (zoom_oscillator m)) as [zo zoom_value]. cbn.
    rewrite Hso. destruct (so_update (shift_oscillator m)) as [so [x y]]. cbn.
    destruct (fzc_enabled (frequency_zoom_controller m)); [|done].
    destruct (get_audio_features (fft_analyzer m)) as [an bins].
    by destruct (process_frequency_bins _ _).
  - rewrite Hso. destruct (so_update (shift_oscillator m)) as [so [x y]]. cbn.
    destruct (fzc_enabled (frequency_zoom_controller m)); [|done].
    destruct (get_audio_features (fft_analyzer m)) as [an bins].
    by destruct (process_frequency_bins _ _).
Qed.

(** X5. The shift fields have no guard at all: a direct [x_shift] or
    [y_shift] in the update is what the tick ends with, whether the shift
    oscillator is enabled or not; without a direct value and with the
    oscillator enabled, the tick ends with the value the oscillator
    computed at the top of the pass. *)
Theorem shift_resolution
    cfg user_id last_time s u t1 data t2 params rest settings :
  bool_decide (0 < args_timeout cfg)
    && bool_decide (args_timeout cfg < clock s - last_time) = false →
  conn_manager s !! user_id = Some u →
  inbox u = (t1, Text data) :: (t2, Text params) :: rest →
  fields data !! "status" = Some (PStr "next_frame") →
  use_acid_processor cfg = true →
  acid_settings params = Some settings →
  let a := acid_processor (modulation (final_state (control_iter cfg user_id last_time s))) in
  (∀ v, settings !! "x_shift" = Some v → x_shift a = v) ∧
  (∀ v, settings !! "y_shift" = Some v → y_shift a = v) ∧
  (so_enabled (shift_oscillator (modulation s)) = true →
   (settings !! "x_shift" = None →
    x_shift a = (so_update (shift_oscillator (modulation s))).2.1) ∧
   (settings !! "y_shift" = None →
    y_shift a = (so_update (shift_oscillator (modulation s))).2.2)).
Proof.
  intros Ht Hu Hi Hst Hc Hs a. subst a.
  rewrite (control_iter_final_modulation _ _ _ _ _ _ _ _ _ _ Ht Hu Hi Hst).
  unfold fuse. rewrite Hs, Hc. cbn [fst].
  split_and!.
  - intros v Hv. acid_field x_shift. by rewrite Hv.
  - intros v Hv. acid_field y_shift. by rewrite Hv.
  - intros Hso. destruct (oscillations_shift cfg (modulation s) Hc Hso) as [Hx Hy].
    split; intros Hn.
    + acid_field x_shift. by rewrite Hn.
    + acid_field y_shift. by rewrite Hn.
Qed.

(** X6. When the server-side frequency controller is enabled, the zoom
    the top of a pass leaves is the controller's output on the analyzer's
    bins scaled by the amplifying factor, also when the zoom oscillator is
    enabled: the oscillator is stepped all the same, but the value it
    computed is overwritten before anything reads it. *)
Theorem server_audio_overrides_oscillator cfg m :
  use_acid_processor cfg = true →
  fzc_enabled (frequency_zoom_controller m) = true →
  let m' := apply_test_oscillations cfg m in
  let bins := (get_audio_features (fft_analyzer m)).2 in
  let amp := fzc_amplifying_factor (frequency_zoom_controller m) in
  zoom_factor (acid_processor m') =
    (process_frequency_bins (frequency_zoom_controller m)
       (PList (map (Z.mul amp) bins))).2 ∧
  (zo_enabled (zoom_oscillator m) = true →
   zoom_oscillator m' = (zo_update (zoom_oscillator m)).1).
Proof.
  intros Hc Hf. cbn zeta.
  destruct (get_audio_features (fft_analyzer m)) as [an bins] eqn:Ea. cbn [snd].
  destruct (process_frequency_bins (frequency_zoom_controller m)
              (PList (map (Z.mul (fzc_amplifying_factor (frequency_zoom_controller m)))
                          bins))) as [c z] eqn:Ep.
  cbn [snd]. unfold apply_test_oscillations. rewrite Hc.
  destruct (zo_enabled (zoom_oscillator m));
    [destruct (zo_update (zoom_oscillator m)) as [zo zoom_value]|];
    cbn [shift_oscillator with_acid_processor with_zoom_oscillator];
    (destruct (so_enabled (shift_oscillator m));
     [destruct (so_update (shift_oscillator m)) as [so [x y]]|]);
    cbn; rewrite Hf, Ea; cbn; rewrite Ep; by split.
Qed.

(** ** What a pass does with the frames it receives *)

(** X7. A message whose status is anything but ["next_frame"] is taken
    off the socket and ignored: nothing is sent, no further frame is read,
    the cell and the pipeline are untouched and the pass loops back; the
    oscillators and the server-side audio have been stepped all the same,
    as they are at the top of every pass. *)
Theorem other_status_ignored cfg user_id last_time s u t data rest v :
  bool_decide (0 < args_timeout cfg)
    && bool_decide (args_timeout cfg < clock s - last_time) = false →
  conn_manager s !! user_id = Some u →
  inbox u = (t, Text data) :: rest →
  fields data !! "status" = Some v →
  v ≠ PStr "next_frame" →
  control_iter cfg user_id last_time s =
    Ok Next
      {| modulation := apply_test_oscillations cfg (modulation s);
         pipeline := pipeline s;
         conn_manager :=
           <[user_id := {| inbox := rest; latest_data := latest_data u |}]>
             (conn_manager s);
         clock := Z.max t (clock s);
         sent := sent s |}.
Proof.
  intros Ht Hu Hi Hst Hv. rewrite control_iter_not_due by done.
  unfold receive_and_handle.
  erewrite (bind_ok (modify _)); [|reflexivity].
  erewrite (bind_ok (receive_json _)); [|by eapply receive_json_text].
  unfold getitem. rewrite Hst.
  erewrite (bind_ok (mret _)); [|reflexivity].
  by rewrite bool_decide_eq_false_2.
Qed.

Lemma entry_not_due cfg s :
  bool_decide (0 < args_timeout cfg)
    && bool_decide (args_timeout cfg < clock s - clock s) = false.
Proof.
  rewrite andb_comm. destruct (bool_decide (0 < args_timeout cfg)) eqn:E.
  - apply bool_decide_eq_true_1 in E. rewrite bool_decide_eq_false_2; [done | lia].
  - apply andb_false_r.
Qed.

(** X8. A first message without a ["status"] key makes the handler
    raise [KeyError] on [data["status"]]; the [except] clause retires the
    session, nothing is sent to the client, the frames behind the message
    are never read and the pipeline is not touched. *)
Theorem missing_status_retires cfg user_id s u t data rest :
  conn_manager s !! user_id = Some u →
  inbox u = (t, Text data) :: rest →
  fields data !! "status" = None →
  ∃ s',
    handle_websocket_data cfg user_id s = (Crashed KeyError, s') ∧
    conn_manager s' = delete user_id (conn_manager s) ∧
    sent s' = sent s ∧
    pipeline s' = pipeline s.
Proof.
  intros Hu Hi Hf. unfold handle_websocket_data, check_user.
  rewrite bool_decide_eq_true_2 by by rewrite Hu.
  cbn [control_loop]. rewrite control_iter_not_due by apply entry_not_due.
  unfold receive_and_handle.
  erewrite (bind_ok (modify _)); [|reflexivity].
  erewrite (bind_ok (receive_json _)); [|by eapply receive_json_text].
  unfold getitem. rewrite Hf. unfold mbind, M_bind, raise.
  eexists. split; [reflexivity|]. cbn. by rewrite delete_insert_eq.
Qed.

(** X9. The settings of an update are applied before its parameters are
    validated (line 229 against line 243): when the pipeline's schema
    rejects the parameters, the pass raises with the modulation state
    already fused, nothing sent and the cell unchanged, and the [except]
    clause retires the session, leaving the fused modulation state behind
    for the sessions that remain. *)
Theorem rejected_update_still_applies_settings
    cfg user_id last_time s u t1 data t2 params rest :
  bool_decide (0 < args_timeout cfg)
    && bool_decide (args_timeout cfg < clock s - last_time) = false →
  conn_manager s !! user_id = Some u →
  inbox u = (t1, Text data) :: (t2, Text params) :: rest →
  fields data !! "status" = Some (PStr "next_frame") →
  let fused := fuse cfg params (apply_test_oscillations cfg (modulation s)) in
  InputParams fused.2 = None →
  ∃ s1,
    control_iter cfg user_id last_time s = Raised ValidationError s1 ∧
    modulation s1 = fused.1 ∧
    sent s1 = sent s ∧
    latest_data <$> conn_manager s1 !! user_id = Some (latest_data u) ∧
    ∀ fuel,
      control_loop (S fuel) cfg user_id last_time s =
        (Crashed ValidationError, with_conn_manager (delete user_id) s1).
Proof.
  intros Ht Hu Hi Hst fused Hv.
  pose proof (control_iter_next_frame cfg user_id last_time s u t1 data t2 params rest
                Ht Hu Hi Hst) as Hrun. cbn zeta in Hrun. fold fused in Hrun.
  unfold submit_params in Hrun. rewrite Hv in Hrun. cbn in Hrun.
  eexists. split; [exact Hrun|]. cbn.
  split_and!; [done|done|by rewrite lookup_insert_eq|].
  intros fuel. cbn [control_loop]. by rewrite Hrun.
Qed.

Lemma submit_params_no_image cfg user_id params d s u :
  InputParams params = Some d →
  input_mode_image = false →
  conn_manager s !! user_id = Some u →
  submit_params cfg user_id params s =
    Ok Next
      {| modulation := modulation s;
         pipeline := pipeline s;
         conn_manager :=
           <[user_id := {| inbox := inbox u; latest_data := Some d |}]> (conn_manager s);
         clock := clock s;
         sent := sent s ++ [(user_id, clock s, status_wait)] |}.
Proof.
  intros Hv Hm Hu. unfold submit_params. rewrite Hv, Hm.
  erewrite (bind_ok (from_option _ _)); [|reflexivity].
  erewrite (bind_ok (update_data _ _)); [|reflexivity].
  erewrite (bind_ok (send_json _ _)); cycle 1.
  { unfold send_json, check_user. cbn.
    rewrite bool_decide_eq_true_2; [reflexivity|].
    by rewrite lookup_alter_eq, Hu. }
  unfold mret, M_ret, with_sent, with_conn_manager. cbn. do 2 f_equal.
  apply map_eq. intros i. rewrite lookup_alter, lookup_insert.
  case_decide as Hd; [subst i; by rewrite Hu | done].
Qed.

(** X10. When the pipeline's input mode is not ["image"], a valid update
    is written to the cell, replacing whatever it held, and acknowledged
    with [status_wait]; no binary frame is read, so whatever follows the
    parameters on the socket is still there for the next pass. *)
Theorem update_without_image cfg user_id last_time s u t1 data t2 params rest d :
  bool_decide (0 < args_timeout cfg)
    && bool_decide (args_timeout cfg < clock s - last_time) = false →
  conn_manager s !! user_id = Some u →
  inbox u = (t1, Text data) :: (t2, Text params) :: rest →
  fields data !! "status" = Some (PStr "next_frame") →
  input_mode_image = false →
  let fused := fuse cfg params (apply_test_oscillations cfg (modulation s)) in
  InputParams fused.2 = Some d →
  let now := Z.max t2 (Z.max t1 (clock s)) in
  control_iter cfg user_id last_time s =
    Ok Next
      {| modulation := fused.1;
         pipeline := pipeline s;
         conn_manager :=
           <[user_id := {| inbox := rest; latest_data := Some d |}]> (conn_manager s);
         clock := now;
         sent := sent s ++ [(user_id, now, status_wait)] |}.
Proof.
  intros Ht Hu Hi Hst Hm fused Hv now.
  rewrite (control_iter_next_frame cfg user_id last_time s u t1 data t2 params rest
             Ht Hu Hi Hst). cbn zeta. fold fused.
  erewrite submit_params_no_image; [|done|done|apply lookup_insert_eq].
  cbn. by rewrite insert_insert_eq.
Qed.


(** ** What a pass of the generator yields *)

(** X12. A pass that finds a parameter set differing from the one it
    processed last and is left with an image (the one the safety checker
    returned, when the checker is enabled) calls the pipeline once, keeps
    the pipeline's new state, stores the image as the feedback of the acid
    processor when acid processing is on, and yields the frame of that
    image: once when the user agent of the request is Firefox, twice, the
    two frames being the same, for any other user agent.  When the request
    carries no user-agent header the frame is yielded once, and the lookup
    of the header then raises [KeyError], which ends the generator. *)
Theorem emitting_pass cfg user_id headers last_params s u p pipe' produced image :
  conn_manager s !! user_id = Some u →
  latest_data u = Some p →
  py_dict_eq p last_params = false →
  predict (pipeline s) p = (pipe', produced) →
  checked_image cfg produced = Some image →
  ∃ t s',
    generate_iter cfg user_id headers last_params s = Ok t s' ∧
    t_last_params t = p ∧ t_invoked t = [p] ∧ t_slept t = false ∧
    (t_frames t, t_raised t) =
      match headers !! "user-agent" with
      | Some user_agent =>
          (if is_firefox user_agent then [pil_to_frame image]
           else [pil_to_frame image; pil_to_frame image], None)
      | None => ([pil_to_frame image], Some KeyError)
      end ∧
    pipeline s' = pipe' ∧
    modulation s' =
      (if use_acid_processor cfg
       then with_acid_processor (acid_update image) (modulation s)
       else modulation s) ∧
    conn_manager s' = conn_manager s ∧
    sent s' = sent s ++ [(user_id, clock s, status_send_frame)] ∧
    (headers !! "user-agent" = None →
     ∀ fuel, generate_loop (S fuel) cfg user_id headers last_params s =
               ([pil_to_frame image], [p], Some KeyError, s')).
Proof.
  intros Hu Hd Hne Hp Hi.
  pose proof (generate_iter_process cfg _ headers _ _ _ _ _ _ Hu Hd Hne Hp) as E.
  rewrite Hi in E. eexists _, _. split; [exact E|]. cbn.
  split_and!; [done..| |done|done|done|done|].
  - unfold yield_frame. by destruct (headers !! "user-agent").
  - intros Hh fuel. rewrite E. unfold yield_frame. by rewrite Hh.
Qed.

(** X13. A parameter set whose generation left no image (the pipeline
    returned none, or the safety checker flagged it or returned none) is
    remembered as processed all the same: as long as the cell holds that
    set, the following passes sleep and do not invoke the pipeline on it
    again. *)
Theorem suppressed_parameters_are_not_retried
    cfg user_id headers last_params s u p pipe' produced s2 u2 :
  conn_manager s !! user_id = Some u →
  latest_data u = Some p →
  py_dict_eq p last_params = false →
  predict (pipeline s) p = (pipe', produced) →
  checked_image cfg produced = None →
  conn_manager s2 !! user_id = Some u2 →
  latest_data u2 = Some p →
  ∃ tick1 s1,
    generate_iter cfg user_id headers last_params s = Ok tick1 s1 ∧
    t_frames tick1 = [] ∧ t_invoked tick1 = [p] ∧ pipeline s1 = pipe' ∧
    generate_iter cfg user_id headers (t_last_params tick1) s2 =
      Ok {| t_last_params := p; t_invoked := []; t_frames := [];
            t_slept := true; t_raised := None |}
         (with_clock (λ now, now + THROTTLE)
            (with_sent (λ l, l ++ [(user_id, clock s2, status_send_frame)]) s2)).
Proof.
  intros Hu Hd Hne Hp Hi Hu2 Hd2.
  rewrite (generate_iter_process cfg _ headers _ _ _ _ _ _ Hu Hd Hne Hp), Hi.
  eexists _, _. split; [reflexivity|]. cbn.
  split_and!; [done..|].
  apply (generate_iter_same _ _ _ _ _ u2 p); [done..|apply py_dict_eq_refl].
Qed.

#[local] Instance transport_kept_refl : Reflexive transport_kept.
Proof. by intros s. Qed.

#[local] Instance transport_kept_trans : Transitive transport_kept.
Proof.
  intros s1 s2 s3 (E1 & E2) (F1 & F2). unfold transport_kept.
  by rewrite F1, F2.
Qed.

(** X14. Every pass of the generator, however it ends (a frame, a
    suppressed result, a sleep, an exception), asks the client for a frame
    exactly once when the user is connected and sends nothing when it is
    not; it never writes a cell, never takes a frame off a socket and
    never retires a session. *)
Theorem generator_transport_footprint cfg user_id headers last_params s :
  let s' := final_state (generate_iter cfg user_id headers last_params s) in
  conn_manager s' = conn_manager s ∧
  sent s' = sent s ++ (if check_user user_id s
                       then [(user_id, clock s, status_send_frame)] else []).
Proof.
  cbn zeta. unfold generate_iter.
  set (rest := (get_latest_data user_id ≫= _)).
  assert (ensures transport_kept rest) as Hr.
  { subst rest. apply ensures_bind; [apply _ | by intros s0 |]. intros params.
    unfold generate_step.
    apply ensures_bind; [apply _ | ens_done |]. intros d.
    destruct (py_dict_eq d last_params || bool_decide (params = None)).
    { apply ensures_bind; [apply _ | by intros s0 |]. intros _. ens_done. }
    apply ensures_bind; [apply _ | |].
    { intros s0. unfold pipeline_predict. by destruct (predict (pipeline s0) d). }
    intros [produced invoked].
    destruct (checked_image cfg produced) as [img|]; [|ens_done].
    apply ensures_bind; [apply _ | |].
    { destruct (use_acid_processor cfg); [by intros s0 | ens_done]. }
    intros _. destruct (yield_frame headers (pil_to_frame img)). ens_done. }
  assert ((send_json user_id status_send_frame ≫= λ _, rest) s =
          rest (if check_user user_id s
                then with_sent (λ l, l ++ [(user_id, clock s, status_send_frame)]) s
                else s)) as ->.
  { unfold mbind, M_bind, send_json. by destruct (check_user user_id s). }
  destruct (check_user user_id s).
  - destruct (Hr (with_sent (λ l, l ++ [(user_id, clock s, status_send_frame)]) s))
      as (E1 & E2). by rewrite E1, E2.
  - destruct (Hr s) as (E1 & E2). by rewrite E1, E2, app_nil_r.
Qed.

(** ** What a run of the control loop never does *)

Section ControlInvariant.
Variables (cfg : Config) (user_id : N).
Variable R : State → State → Prop.
Context `{!Reflexive R, !Transitive R}.
Hypothesis R_conn_manager : ∀ s f, R s (with_conn_manager f s).
Hypothesis R_clock : ∀ s f, R s (with_clock f s).
Hypothesis R_sent : ∀ s f, R s (with_sent f s).
Hypothesis R_oscillations :
  ∀ s, R s (with_modulation (apply_test_oscillations cfg) s).
Hypothesis R_fuse :
  ∀ s params, R s (with_modulation (λ _, (fuse cfg params (modulation s)).1) s).

Lemma invariant_send_json msg : ensures R (send_json user_id msg).
Proof.
  intros s. unfold send_json. destruct (check_user user_id s); cbn; [done|].
  reflexivity.
Qed.

Lemma invariant_receive : ensures R (receive user_id).
Proof.
  intros s. unfold receive.
  destruct (conn_manager s !! user_id) as [u|]; [|cbn; reflexivity].
  destruct (inbox u) as [|[t f] rest]; cbn; [reflexivity|].
  etrans; [apply R_conn_manager | apply R_clock].
Qed.

Lemma invariant_receive_json : ensures R (receive_json user_id).
Proof.
  apply ensures_bind; [apply _ | apply invariant_receive |].
  intros [j|b|]; ens_done.
Qed.

Lemma invariant_receive_bytes : ensures R (receive_bytes user_id).
Proof.
  apply ensures_bind; [apply _ | apply invariant_receive |].
  intros [j|b|]; ens_done.
Qed.

Lemma invariant_submit_params params : ensures R (submit_params cfg user_id params).
Proof.
  unfold submit_params.
  apply ensures_bind; [apply _ | ens_done |]. intros d.
  destruct input_mode_image.
  - apply ensures_bind; [apply _ | apply invariant_receive_bytes |]. intros b.
    case_bool_decide.
    + apply ensures_bind; [apply _ | apply invariant_send_json |]. intros _. ens_done.
    + apply ensures_bind; [apply _ | ens_done |]. intros img.
      apply ensures_bind; [apply _ | ens_done |]. intros m.
      apply ensures_bind; [apply _ | by apply ensures_modify |]. intros _.
      apply ensures_bind; [apply _ | apply invariant_send_json |]. intros _. ens_done.
  - apply ensures_bind; [apply _ | by apply ensures_modify |]. intros _.
    apply ensures_bind; [apply _ | apply invariant_send_json |]. intros _. ens_done.
Qed.

Lemma invariant_handle_next_frame : ensures R (handle_next_frame cfg user_id).
Proof.
  intros s. unfold handle_next_frame, mbind at 1, M_bind at 1.
  pose proof (invariant_receive_json s) as Hr.
  destruct (receive_json user_id s) as [params s1| s1 | e s1]; cbn in Hr; [|done..].
  unfold mbind at 1, M_bind at 1. cbn [get_modulation].
  pose proof (R_fuse s1 params) as Hf.
  destruct (fuse cfg params (modulation s1)) as [m' params'].
  unfold mbind at 1, M_bind at 1. cbn [modify].
  etrans; [exact Hr|]. etrans; [exact Hf|]. apply invariant_submit_params.
Qed.

Lemma invariant_control_iter last_time :
  ensures R (control_iter cfg user_id last_time).
Proof.
  unfold control_iter.
  apply ensures_bind; [apply _ | by intros s; cbn |]. intros now.
  destruct (bool_decide (0 < args_timeout cfg)
            && bool_decide (args_timeout cfg < now - last_time)).
  - apply ensures_bind; [apply _ | apply invariant_send_json |]. intros _.
    apply ensures_bind; [apply _ | by apply ensures_modify |]. intros _. ens_done.
  - unfold receive_and_handle.
    apply ensures_bind; [apply _ | by apply ensures_modify |]. intros _.
    apply ensures_bind; [apply _ | apply invariant_receive_json |]. intros data.
    apply ensures_bind; [apply _ | |].
    { unfold getitem. destruct (fields data !! "status"); ens_done. }
    intros status. case_bool_decide; [apply invariant_handle_next_frame | ens_done].
Qed.

Lemma invariant_control_loop fuel last_time s :
  R s (control_loop fuel cfg user_id last_time s).2.
Proof.
  revert s. induction fuel as [|fuel IH]; intros s; cbn; [reflexivity|].
  pose proof (invariant_control_iter last_time s) as Hi.
  destruct (control_iter cfg user_id last_time s) as [[|] s'| s' | e s'];
    cbn in *; [by etrans|done|done|].
  etrans; [exact Hi | apply R_conn_manager].
Qed.

Lemma invariant_handle_websocket_data s :
  R s (handle_websocket_data cfg user_id s).2.
Proof.
  unfold handle_websocket_data. destruct (check_user user_id s); [|reflexivity].
  apply invariant_control_loop.
Qed.
End ControlInvariant.

Lemma oscillations_last_diffusion cfg m :
  last_diffusion (acid_processor (apply_test_oscillations cfg m)) =
    last_diffusion (acid_processor m).
Proof. by apply (oscillations_acid_frame last_diffusion). Qed.

Lemma fuse_last_diffusion cfg params m :
  last_diffusion (acid_processor (fuse cfg params m).1) =
    last_diffusion (acid_processor m).
Proof.
  unfold fuse. destruct (acid_settings params) as [settings|]; [|done].
  destruct (use_acid_processor cfg) eqn:Hc; [|done]. cbn [fst].
  rewrite (process_binned_fft_frame (λ m, last_diffusion (acid_processor m))) by done.
  rewrite update_acid_processor by done. cbn zeta.
  by repeat first [ rewrite (on_key_frame last_diffusion) by done
                  | rewrite (if_frame last_diffusion) by done ].
Qed.

#[local] Instance pipeline_kept_refl : Reflexive pipeline_kept.
Proof. by intros s. Qed.

#[local] Instance pipeline_kept_trans : Transitive pipeline_kept.
Proof. intros s1 s2 s3 E1 E2. unfold pipeline_kept in *. by rewrite E2. Qed.

#[local] Instance feedback_kept_refl : Reflexive feedback_kept.
Proof. by intros s. Qed.

#[local] Instance feedback_kept_trans : Transitive feedback_kept.
Proof. intros s1 s2 s3 E1 E2. unfold feedback_kept in *. by rewrite E2. Qed.

(** X15. A run of the control loop, whatever it receives and however it
    ends, never invokes the pipeline and never writes the feedback buffer
    of the acid processor: the pipeline and the stored image are, when
    the coroutine stops, what they were when it started.  Those two are
    written by the generator alone. *)
Theorem control_loop_leaves_pipeline_and_feedback cfg user_id s :
  let s' := (handle_websocket_data cfg user_id s).2 in
  pipeline s' = pipeline s ∧
  last_diffusion (acid_processor (modulation s')) =
    last_diffusion (acid_processor (modulation s)).
Proof.
  cbn zeta. split.
  - by apply (invariant_handle_websocket_data cfg user_id pipeline_kept).
  - apply (invariant_handle_websocket_data cfg user_id feedback_kept); try done.
    + intros s0. apply oscillations_last_diffusion.
    + intros s0 params. apply fuse_last_diffusion.
Qed.

(** ** How a run of the control loop ends *)

Lemma blocked_bind {A B} (P : State → Prop) (c : M A) (k : A → M B) :
  blocked_ensures P c → (∀ a, blocked_ensures P (k a)) → blocked_ensures P (c ≫= k).
Proof.
  intros Hc Hk s s'. unfold mbind, M_bind.
  destruct (c s) as [a s1| s1 | e s1] eqn:E; [apply Hk | | done].
  intros [= <-]. by eapply Hc.
Qed.

Lemma blocked_ret {A} P (a : A) : blocked_ensures P (mret a).
Proof. by intros s s'. Qed.

Lemma blocked_raise {A} P e : blocked_ensures P (@raise _ A e).
Proof. by intros s s'. Qed.

Lemma blocked_from_option {A} P e (o : option A) : blocked_ensures P (from_option e o).
Proof. destruct o; [apply blocked_ret | apply blocked_raise]. Qed.

Lemma blocked_modify P f : blocked_ensures P (modify f).
Proof. by intros s s'. Qed.

Lemma blocked_send_json P user_id msg : blocked_ensures P (send_json user_id msg).
Proof. intros s s'. unfold send_json. by destruct (check_user user_id s). Qed.

Lemma blocked_receive user_id : blocked_ensures (waiting user_id) (receive user_id).
Proof.
  intros s s'. unfold receive.
  destruct (conn_manager s !! user_id) as [u|] eqn:Hu; [|done].
  destruct (inbox u) as [|[t f] rest] eqn:Hi; [|done].
  intros [= <-]. by exists u.
Qed.

Lemma blocked_receive_json user_id :
  blocked_ensures (waiting user_id) (receive_json user_id).
Proof.
  apply blocked_bind; [apply blocked_receive|].
  intros [j|b|]; [apply blocked_ret | apply blocked_raise..].
Qed.

Lemma blocked_receive_bytes user_id :
  blocked_ensures (waiting user_id) (receive_bytes user_id).
Proof.
  apply blocked_bind; [apply blocked_receive|].
  intros [j|b|]; [apply blocked_raise | apply blocked_ret | apply blocked_raise].
Qed.

Lemma blocked_control_iter cfg user_id last_time :
  blocked_ensures (waiting user_id) (control_iter cfg user_id last_time).
Proof.
  unfold control_iter. apply blocked_bind; [by intros s s'|]. intros now.
  destruct (bool_decide (0 < args_timeout cfg)
            && bool_decide (args_timeout cfg < now - last_time)).
  - apply blocked_bind; [apply blocked_send_json|]. intros _.
    apply blocked_bind; [apply blocked_modify|]. intros _. apply blocked_ret.
  - unfold receive_and_handle.
    apply blocked_bind; [apply blocked_modify|]. intros _.
    apply blocked_bind; [apply blocked_receive_json|]. intros data.
    apply blocked_bind.
    { unfold getitem. destruct (fields data !! "status");
        [apply blocked_ret | apply blocked_raise]. }
    intros status. case_bool_decide; [|apply blocked_ret].
    unfold handle_next_frame.
    apply blocked_bind; [apply blocked_receive_json|]. intros params.
    apply blocked_bind; [by intros s s'|]. intros m.
    destruct (fuse cfg params m) as [m' params'].
    apply blocked_bind; [apply blocked_modify|]. intros _.
    unfold submit_params.
    apply blocked_bind; [apply blocked_from_option|]. intros d.
    destruct input_mode_image.
    + apply blocked_bind; [apply blocked_receive_bytes|]. intros b.
      case_bool_decide.
      * apply blocked_bind; [apply blocked_send_json|]. intros _. apply blocked_ret.
      * apply blocked_bind; [apply blocked_from_option|]. intros img.
        apply blocked_bind; [by intros s s'|]. intros m0.
        apply blocked_bind; [apply blocked_modify|]. intros _.
        apply blocked_bind; [apply blocked_send_json|]. intros _. apply blocked_ret.
    + apply blocked_bind; [apply blocked_modify|]. intros _.
      apply blocked_bind; [apply blocked_send_json|]. intros _. apply blocked_ret.
Qed.

Lemma control_iter_stop cfg user_id last_time s s' :
  control_iter cfg user_id last_time s = Ok Stop s' →
  conn_manager s' !! user_id = None.
Proof.
  unfold control_iter. rewrite (bind_ok time_time _ s (clock s) s eq_refl).
  destruct (bool_decide (0 < args_timeout cfg)
            && bool_decide (args_timeout cfg < clock s - last_time)).
  - unfold send_json, mbind, M_bind.
    destruct (check_user user_id s); intros [= <-]; cbn; apply lookup_delete_eq.
  - intros E. by apply returns_next_receive_and_handle in E.
Qed.

Lemma control_loop_lifecycle cfg user_id last_time fuel s :
  (length (pending user_id s) < fuel)%nat →
  match control_loop fuel cfg user_id last_time s with
  | (TimedOut, s') | (Crashed _, s') => conn_manager s' !! user_id = None
  | (Suspended, s') => waiting user_id s'
  | (UserNotFound, _) | (OutOfFuel, _) => False
  end.
Proof.
  revert s. induction fuel as [|fuel IH]; intros s Hlt; [lia|]. cbn.
  destruct (control_iter cfg user_id last_time s) as [[|] s'| s' | e s'] eqn:E.
  - apply IH. apply control_iter_consumes in E. unfold pending_consumed in E. lia.
  - by eapply control_iter_stop.
  - by eapply blocked_control_iter.
  - cbn. apply lookup_delete_eq.
Qed.

(** X16. A run of the handler ends in one of three ways, and never runs
    out of passes.  It returns at once, changing nothing, when the user
    is not connected.  It returns after a timeout or an exception, and
    then the session has been retired.  Or it is left waiting for a
    frame, and then the session is still active and its socket is
    empty: every frame that had arrived has been taken. *)
Theorem session_lifecycle cfg user_id s :
  match handle_websocket_data cfg user_id s with
  | (UserNotFound, s') => s' = s ∧ conn_manager s !! user_id = None
  | (TimedOut, s') | (Crashed _, s') => conn_manager s' !! user_id = None
  | (Suspended, s') => waiting user_id s'
  | (OutOfFuel, _) => False
  end.
Proof.
  unfold handle_websocket_data, check_user. case_bool_decide as Hu.
  - pose proof (control_loop_lifecycle cfg user_id (clock s)
                  (S (length (pending user_id s))) s) as Hl.
    destruct (control_loop _ cfg user_id (clock s) s) as [[| | | e|] s'];
      try (apply Hl; lia). exfalso. apply Hl. lia.
  - split; [done|]. by apply eq_None_not_Some.
Qed.

Lemma kept_control_loop cfg user_id other last_time fuel s :
  user_id ≠ other →
  session_kept other s (control_loop fuel cfg user_id last_time s).2.
Proof.
  intros Hne. revert s. induction fuel as [|fuel IH]; intros s; cbn; [reflexivity|].
  pose proof (kept_control_iter cfg user_id other last_time Hne s) as Hi.
  destruct (control_iter cfg user_id last_time s) as [[|] s'| s' | e s'];
    cbn in *; [by etrans|done|done|].
  etrans; [exact Hi|]. unfold session_kept. cbn. by rewrite lookup_delete_ne.
Qed.

(** X17. A whole run of one user's handler, with its timeout or its
    crash and the retirement that follows, leaves the session of every
    other user as it was: same pending frames, same cell. *)
Theorem other_sessions_survive cfg user_id other s :
  user_id ≠ other →
  conn_manager (handle_websocket_data cfg user_id s).2 !! other =
    conn_manager s !! other.
Proof.
  intros Hne. unfold handle_websocket_data.
  destruct (check_user user_id s); [|done].
  by apply kept_control_loop.
Qed.

(** X18. The timeout is counted from the entry of the loop, not from the
    last message: when the first message of a session arrives after the
    deadline, the pass that was waiting for it still handles it (here a
    message that is not ["next_frame"]), and the next pass, which starts
    at the arrival time of that message, times the session out: the
    client that has just spoken is sent [status_timeout] and retired, and
    the frames behind the message are never read. *)
Theorem late_message_then_timeout cfg user_id s u t data rest v :
  0 < args_timeout cfg →
  conn_manager s !! user_id = Some u →
  inbox u = (t, Text data) :: rest →
  fields data !! "status" = Some v →
  v ≠ PStr "next_frame" →
  args_timeout cfg < t - clock s →
  ∃ s',
    handle_websocket_data cfg user_id s = (TimedOut, s') ∧
    sent s' = sent s ++ [(user_id, t, status_timeout)] ∧
    conn_manager s' = delete user_id (conn_manager s) ∧
    modulation s' = apply_test_oscillations cfg (modulation s).
Proof.
  intros Hp Hu Hi Hst Hv Hlate. unfold handle_websocket_data, check_user.
  rewrite bool_decide_eq_true_2 by by rewrite Hu.
  unfold pending. rewrite Hu, Hi. cbn [length control_loop].
  rewrite control_iter_not_due by apply entry_not_due.
  unfold receive_and_handle.
  erewrite (bind_ok (modify _)); [|reflexivity].
  erewrite (bind_ok (receive_json _)); [|by eapply receive_json_text].
  unfold getitem. rewrite Hst.
  erewrite (bind_ok (mret _)); [|reflexivity].
  rewrite bool_decide_eq_false_2 by done. unfold mret at 1, M_ret at 1.
  rewrite control_iter_due by (cbn; lia). cbn.
  unfold check_user. cbn. rewrite bool_decide_eq_true_2 by by rewrite lookup_insert_eq.
  eexists. split; [reflexivity|]. cbn.
  replace (Z.max t (clock s)) with t by lia.
  by rewrite delete_insert_eq.
Qed.

(** ** The endpoint *)

(** X19. When [websocket_endpoint] has finished, because the connection
    was refused or because the handler returned after a timeout or an
    exception, no session with the user's id is active and the other
    sessions are exactly those that were active before: the [finally]
    clause leaves no session behind.  A refused connection runs no pass:
    modulation state, pipeline and messages sent are untouched. *)
Theorem websocket_endpoint_leaves_no_session cfg max_queue_size user_id websocket s :
  let r := websocket_endpoint cfg max_queue_size user_id websocket s in
  (r.1 ≠ Handled Suspended → conn_manager r.2 = delete user_id (conn_manager s)) ∧
  (r.1 = ServerFull →
   modulation r.2 = modulation s ∧ pipeline r.2 = pipeline s ∧ sent r.2 = sent s).
Proof.
  cbn zeta. unfold websocket_endpoint.
  destruct (connect user_id websocket max_queue_size s) as [s0|] eqn:Ec; [|done].
  assert (∀ other, user_id ≠ other →
            conn_manager (handle_websocket_data cfg user_id s0).2 !! other =
            conn_manager s !! other) as Hk.
  { intros other Hne. unfold connect in Ec. case_bool_decide; [done|].
    injection Ec as <-. unfold handle_websocket_data.
    destruct (check_user user_id _);
      [rewrite (kept_control_loop cfg user_id other) by done|];
      cbn; by rewrite lookup_insert_ne. }
  destruct (handle_websocket_data cfg user_id s0) as [e s'].
  cbn [fst snd] in *.
  assert (conn_manager (with_conn_manager (delete user_id) s') =
            delete user_id (conn_manager s)) as Hd.
  { cbn. apply map_eq. intros i. destruct (decide (user_id = i)) as [<-|Hne].
    - by rewrite !lookup_delete_eq.
    - rewrite !lookup_delete_ne by done. by apply Hk. }
  destruct e; cbn; by split.
Qed.

(** ** The two loops together *)

(** X20. Latest wins: when two valid updates are handled before the
    generator polls (here for a pipeline that takes no image, with the
    timeout disabled), each is acknowledged with [status_wait], the cell
    holds the second, the handler is left waiting and has not touched the
    pipeline, and the next pass of the generator calls the pipeline on the
    second parameter set only, which moves it by that one [predict]; the
    first is never generated. *)
Theorem latest_update_wins
    cfg user_id s u t1 data1 t2 params1 t3 data2 t4 params2 d1 d2 :
  args_timeout cfg ≤ 0 →
  input_mode_image = false →
  conn_manager s !! user_id = Some u →
  inbox u = [(t1, Text data1); (t2, Text params1); (t3, Text data2); (t4, Text params2)] →
  fields data1 !! "status" = Some (PStr "next_frame") →
  fields data2 !! "status" = Some (PStr "next_frame") →
  let f1 := fuse cfg params1 (apply_test_oscillations cfg (modulation s)) in
  InputParams f1.2 = Some d1 →
  let f2 := fuse cfg params2 (apply_test_oscillations cfg f1.1) in
  InputParams f2.2 = Some d2 →
  ∃ s' c1 c2,
    handle_websocket_data cfg user_id s = (Suspended, s') ∧
    latest_data <$> conn_manager s' !! user_id = Some (Some d2) ∧
    sent s' = sent s ++ [(user_id, c1, status_wait); (user_id, c2, status_wait)] ∧
    pipeline s' = pipeline s ∧
    ∀ headers last_params, py_dict_eq d2 last_params = false →
      ∃ tick s'', generate_iter cfg user_id headers last_params s' = Ok tick s'' ∧
                  t_invoked tick = [d2] ∧
                  pipeline s'' = (predict (pipeline s) d2).1.
Proof.
  intros Hle Hm Hu Hi Hst1 Hst2 f1 Hv1 f2 Hv2.
  unfold handle_websocket_data, check_user.
  rewrite bool_decide_eq_true_2 by by rewrite Hu.
  unfold pending. rewrite Hu, Hi. cbn [length control_loop].
  (* first exchange *)
  rewrite (control_iter_next_frame cfg user_id (clock s) s u t1 data1 t2 params1
             [(t3, Text data2); (t4, Text params2)])
    by (done || by apply timeout_disabled).
  cbn zeta. fold f1.
  erewrite submit_params_no_image; [|done|done|apply lookup_insert_eq].
  cbn [inbox modulation pipeline conn_manager clock sent].
  (* second exchange *)
  erewrite (control_iter_next_frame cfg user_id (clock s) _ _ t3 data2 t4 params2 []);
    [|by apply timeout_disabled|apply lookup_insert_eq|reflexivity|done].
  cbn zeta. cbn [modulation]. fold f2.
  erewrite submit_params_no_image; [|done|done|apply lookup_insert_eq].
  cbn [inbox modulation pipeline conn_manager clock sent].
  (* the third pass finds the socket empty *)
  rewrite control_iter_not_due by by apply timeout_disabled.
  erewrite receive_and_handle_idle; [|apply lookup_insert_eq|reflexivity].
  eexists _, _, _. split; [reflexivity|]. cbn.
  split; [by rewrite lookup_insert_eq|].
  split; [by rewrite <- app_assoc|].
  split; [reflexivity|].
  intros headers last_params Hne.
  match goal with
  | |- ∃ tick s'', generate_iter _ _ _ _ ?st = _ ∧ _ =>
      edestruct (generate_iter_new cfg user_id headers last_params st)
        as (tk & s'' & E & _ & Hinv & _ & Hpipe & _);
        [apply lookup_insert_eq | reflexivity | exact Hne |]
  end.
  by exists tk, s''.
Qed.

Lemma generate_loop_idle cfg user_id headers last_params p fuel s u :
  conn_manager s !! user_id = Some u →
  latest_data u = Some p →
  py_dict_eq p last_params = true →
  ∃ s', generate_loop fuel cfg user_id headers last_params s = ([], [], None, s') ∧
        pipeline s' = pipeline s.
Proof.
  intros Hu Hd He. revert s Hu.
  induction fuel as [|fuel IH]; intros s Hu; cbn [generate_loop].
  { by eexists. }
  rewrite (generate_iter_same _ _ _ _ _ u p) by done.
  cbn [t_last_params t_raised t_frames t_invoked].
  edestruct IH as (s' & E & Hp); [|rewrite E]; [exact Hu|].
  by eexists.
Qed.

(** X21. Polling a cell that does not change calls the pipeline at most
    once, however many passes the generator makes: once, on the first
    pass, when the parameter set differs from the one the loop processed
    last, which leaves the pipeline one [predict] on, and never, leaving
    the pipeline as it was, when it is equal to it; at most the two copies
    of one frame are yielded in all.  For a request that carries a
    user-agent header no pass raises; for one that does not, the generator
    can only end with the [KeyError] of the header lookup, after the one
    frame it has yielded. *)
Theorem constant_cell_invoked_at_most_once
    cfg user_id headers last_params fuel s u p :
  conn_manager s !! user_id = Some u →
  latest_data u = Some p →
  ∃ frames e s',
    generate_loop fuel cfg user_id headers last_params s =
      (frames,
       if py_dict_eq p last_params then []
       else match fuel with O => [] | S _ => [p] end,
       e, s') ∧
    pipeline s' =
      (if py_dict_eq p last_params then pipeline s
       else match fuel with O => pipeline s | S _ => (predict (pipeline s) p).1 end) ∧
    (length frames ≤ 2)%nat ∧
    match headers !! "user-agent" with
    | Some _ => e = None
    | None => e = None ∨ (e = Some KeyError ∧ length frames = 1%nat)
    end.
Proof.
  intros Hu Hd.
  destruct (py_dict_eq p last_params) eqn:Hne.
  { destruct (generate_loop_idle cfg user_id headers last_params p fuel s u Hu Hd Hne)
      as (s' & E & Hp).
    exists [], None, s'. split_and!; [done | done | cbn; lia |].
    destruct (headers !! "user-agent"); [done | by left]. }
  destruct fuel as [|fuel].
  { exists [], None, s. split_and!; [done | done | cbn; lia |].
    destruct (headers !! "user-agent"); [done | by left]. }
  cbn [generate_loop].
  destruct (predict (pipeline s) p) as [pipe' produced] eqn:Hp.
  rewrite (generate_iter_process cfg _ headers _ _ _ _ _ _ Hu Hd Hne Hp).
  destruct (checked_image cfg produced) as [image|];
    cbn [t_last_params t_frames t_invoked t_raised].
  - unfold yield_frame.
    destruct (headers !! "user-agent") as [user_agent|]; cbn [fst snd].
    + edestruct (generate_loop_idle cfg user_id headers p p fuel) as (s' & E & Hp');
        [..|rewrite E]; [exact Hu|exact Hd|apply py_dict_eq_refl|].
      eexists _, _, _. split; [reflexivity|]. rewrite app_nil_r.
      split; [exact Hp'|]. split; [|done].
      destruct (is_firefox user_agent); cbn; lia.
    + eexists _, _, _. split; [reflexivity|]. split; [reflexivity|].
      split; [cbn; lia|]. by right.
  - edestruct (generate_loop_idle cfg user_id headers p p fuel) as (s' & E & Hp');
      [..|rewrite E]; [exact Hu|exact Hd|apply py_dict_eq_refl|].
    eexists _, _, _. split; [reflexivity|]. split; [exact Hp'|].
    split; [cbn; lia|]. destruct (headers !! "user-agent"); [done | by left].
Qed.

End Properties.

(** * The properties on the stand-in collaborators *)

Import Demo.

(** C1 fails as stated: with the oscillator on, computing 6 for this
    tick, and an update that sets the zoom to 2, the tick resolves to 2,
    the image is stamped with 2, and the tick does not resolve to the
    oscillator's value. *)
Lemma C1_direct_zoom_overrides_oscillator :
  zo_enabled (zoom_oscillator (modulation s_direct)) = true ∧
  (zo_update (zoom_oscillator (modulation s_direct))).2 = PNum 6 ∧
  direct_zoom !! "zoom_factor" = Some (PNum 2) ∧
  (∃ s', control_iter (cfg0 0 false) 1%N 0 s_direct = Ok Next s' ∧
         zoom_factor (acid_processor (modulation s')) = PNum 2 ∧
         latest_data <$> conn_manager s' !! 1%N =
           Some (Some (<["image" := PImage [2; 9]]> cat))) ∧
  ¬ resolved_zoom_is (cfg0 0 false) 1%N 0 s_direct
      (zo_update (zoom_oscillator (modulation s_direct))).2.
Proof.
  split_and!; [reflexivity..| |].
  - eexists. split; [vm_compute; reflexivity|]. split; vm_compute; reflexivity.
  - intros [_ Hz]. vm_compute in Hz. discriminate Hz.
Qed.

Lemma C1_witness :
  resolved_zoom_is (cfg0 0 false) 1%N 0 s_direct (PNum 2) ∧
  resolved_zoom_is (cfg0 0 false) 1%N 0 s_direct_bins (PNum 6).
Proof.
  split.
  - eapply (C1_zoom_with_oscillator_enabled (cfg0 0 false) 1%N 0 s_direct
              _ _ _ _ _ _ direct_zoom (PNum 2));
      reflexivity.
  - eapply (C1_zoom_with_oscillator_enabled (cfg0 0 false) 1%N 0 s_direct_bins
              _ _ _ _ _ _ zoom_and_bins (PNum 2));
      try reflexivity.
    by eexists.
Defined.

(** C2 fails as stated: the tick starts with the zoom oscillator disabled
    and its update carries bins and a direct zoom, together with the
    toggle that switches the oscillator on.  The toggle is applied before
    the bins are looked at, so the controller is not consulted: the tick
    resolves to the zoom it started with, 1, the image is stamped with 1,
    the controller is left as it was, and the tick does not resolve to the
    controller's output on those bins, 7. *)
Lemma C2_update_enabling_oscillator_skips_bins :
  zo_enabled (zoom_oscillator (modulation s_bins_toggle)) = false ∧
  bins_and_toggle !! "binned_fft" = Some (PList [3; 4]) ∧
  bins_and_toggle !! "zoom_factor" = Some (PNum 2) ∧
  (process_frequency_bins
     (frequency_zoom_controller (modulation s_bins_toggle)) (PList [3; 4])).2
    = PNum 7 ∧
  (∃ s', control_iter (cfg0 0 false) 1%N 0 s_bins_toggle = Ok Next s' ∧
         zoom_factor (acid_processor (modulation s')) = PNum 1 ∧
         frequency_zoom_controller (modulation s') =
           frequency_zoom_controller (modulation s_bins_toggle) ∧
         zo_enabled (zoom_oscillator (modulation s')) = true ∧
         latest_data <$> conn_manager s' !! 1%N =
           Some (Some (<["image" := PImage [1; 9]]> cat))) ∧
  ¬ resolved_zoom_is (cfg0 0 false) 1%N 0 s_bins_toggle (PNum 7).
Proof.
  split_and!; [reflexivity..| |].
  - eexists. split; [vm_compute; reflexivity|]. split_and!; vm_compute; reflexivity.
  - intros [_ Hz]. vm_compute in Hz. discriminate Hz.
Qed.

Lemma C2_witness :
  resolved_zoom_is (cfg0 0 false) 1%N 0 s_bins (PNum 7).
Proof.
  edestruct (C2_bins_override_direct_zoom (cfg0 0 false) 1%N 0 s_bins
               (session [(1, next_frame); (2, update (Some zoom_and_bins));
                         (3, Binary [9])] None)
               1 next_frame_msg 2 (update_msg (Some zoom_and_bins)) [(3, Binary [9])]
               zoom_and_bins (PList [3; 4])) as [W _];
    [reflexivity..|done|reflexivity|exact W].
Defined.

(** C3 fails as stated: once the generator has processed the set in the
    cell, the next two reads of the cell yield that same set and make no
    call of the pipeline, not one; both passes sleep and the pipeline is
    left as it was.  The same holds for a set that is not identical to the
    processed one and that [==] takes for equal to it, and for the empty
    set read by a generator that has not processed anything yet. *)
Lemma C3_processed_set_is_not_invoked :
  (∃ frames s1 s3,
     generate 1 (cfg0 0 false) 1%N firefox (s_stream 0 (Some cat)) =
       (frames, [cat], None, s1) ∧
     latest_data <$> conn_manager s1 !! 1%N = Some (Some cat) ∧
     generate_loop 2 (cfg0 0 false) 1%N firefox cat s1 = ([], [], None, s3) ∧
     latest_data <$> conn_manager s3 !! 1%N = Some (Some cat) ∧
     pipeline s3 = pipeline s1 ∧
     ¬ (∃ frames' s',
          generate_loop 2 (cfg0 0 false) 1%N firefox cat s1 =
            (frames', [cat], None, s'))) ∧
  (∃ s', generate_loop 2 (cfg0 0 false) 1%N firefox seed_one
           (s_stream 1 (Some seed_true)) = ([], [], None, s') ∧
         pipeline s' = pipeline (s_stream 1 (Some seed_true))) ∧
  (∃ s', generate 2 (cfg0 0 false) 1%N firefox (s_stream 0 (Some ∅)) =
           ([], [], None, s') ∧
         pipeline s' = pipeline (s_stream 0 (Some ∅))).
Proof.
  split_and!.
  - eexists _, _, _. split; [vm_compute; reflexivity|].
    split; [vm_compute; reflexivity|]. split; [vm_compute; reflexivity|].
    split; [vm_compute; reflexivity|]. split; [vm_compute; reflexivity|].
    intros (frames' & s' & E). vm_compute in E. discriminate E.
  - eexists. split; [vm_compute; reflexivity|]. vm_compute; reflexivity.
  - eexists. split; [vm_compute; reflexivity|]. vm_compute; reflexivity.
Qed.

Lemma C3_witness :
  ∃ tick1 s1' tick2 s2',
    generate_iter (cfg0 0 false) 1%N firefox ∅ (s_stream 0 (Some cat)) =
      Ok tick1 s1' ∧
    generate_iter (cfg0 0 false) 1%N firefox (t_last_params tick1)
      (s_stream 5 (Some cat)) = Ok tick2 s2' ∧
    t_invoked tick1 = [cat] ∧ pipeline s1' = 1 ∧
    t_invoked tick2 = [] ∧ t_slept tick2 = true ∧
    pipeline s2' = 5 ∧ clock s2' = 1 ∧
    ∃ frames s',
      generate 2 (cfg0 0 false) 1%N firefox (s_stream 0 (Some cat)) =
        (frames, [cat], None, s') ∧
      pipeline s' = 1.
Proof.
  destruct (C3_equal_reads_invoke_at_most_once (cfg0 0 false) 1%N firefox ∅
              (s_stream 0 (Some cat)) (session [] (Some cat)) cat
              (s_stream 5 (Some cat)) (session [] (Some cat)) cat)
    as (tick1 & s1' & tick2 & s2' & E1 & E2 & H1 & Hi2 & _ & Hs2 & _ & Hp2 & Hc2 & Hloop);
    [reflexivity|reflexivity|reflexivity|reflexivity|vm_compute; reflexivity|].
  assert (py_dict_eq cat ∅ = false) as Hne by (vm_compute; reflexivity).
  rewrite Hne in H1. destruct H1 as (Hi1 & Hp1 & _).
  assert (t_raised tick1 = None) as Hr.
  { vm_compute in E1. by injection E1 as <- _. }
  destruct (Hloop Hr) as (frames & s' & E & Hp).
  exists tick1, s1', tick2, s2'.
  split_and!; [exact E1|exact E2|exact Hi1|by rewrite Hp1|exact Hi2|exact Hs2
              |by rewrite Hp2|by rewrite Hc2|].
  exists frames, s'. split; [by rewrite <- Hi1|]. by rewrite Hp, Hp1.
Defined.

(** C4 fails as stated: once the first user's loop has handled an update
    that sets the zoom to 2, the image of the second user, whose update
    sets nothing, is processed with zoom 2; had the first user's update
    not been handled it would have been processed with the initial zoom 1.
    The parameters resolved for the second session show what was written
    while handling the first. *)
Lemma C4_other_session_sees_the_zoom :
  let cfg := cfg0 0 false in
  let s_a := final_state (control_iter cfg 1%N 0 s_two) in
  latest_data <$> conn_manager (final_state (control_iter cfg 2%N 0 s_a)) !! 2%N =
    Some (Some (<["image" := PImage [2; 9]]> cat)) ∧
  latest_data <$> conn_manager (final_state (control_iter cfg 2%N 0 s_two)) !! 2%N =
    Some (Some (<["image" := PImage [1; 9]]> cat)) ∧
  zoom_factor (acid_processor (modulation s_two)) = PNum 1 ∧
  zoom_factor (acid_processor (modulation s_a)) = PNum 2.
Proof. vm_compute. by split_and!. Qed.

Lemma C4_witness :
  resolved_zoom_is (cfg0 0 false) 2%N 0
    (final_state (control_iter (cfg0 0 false) 1%N 0 s_two)) (PNum 2).
Proof.
  edestruct (C4_modulation_state_is_shared (cfg0 0 false) 1%N 2%N 0 0 s_two (PNum 2)
               (session [(4, next_frame); (5, update None); (6, Binary [9])] None)
               4 next_frame_msg 5 (update_msg None) [(6, Binary [9])]) as [W _];
    [done| |reflexivity..|exact W].
  eapply (resolved_zoom_intro (cfg0 0 false) 1%N 0 s_two
            (session [(1, next_frame); (2, update (Some direct_zoom)); (3, Binary [8])]
                     None)
            1 next_frame_msg 2 (update_msg (Some direct_zoom)) [(3, Binary [8])]);
    reflexivity.
Defined.

(** C5 fails as stated: with a timeout of 5, a session whose client never
    sends a frame is left suspended on the receive, still connected, with
    nothing sent to it, however long it stays idle; and a session whose
    client is silent until time 1000 gets its timeout message at time
    1000, once that frame has been received, not when the timeout ran
    out. *)
Lemma C5_idle_session_is_not_evicted :
  (handle_websocket_data (cfg0 5 false) 1%N s_idle).1 = Suspended ∧
  sent (handle_websocket_data (cfg0 5 false) 1%N s_idle).2 = [] ∧
  is_Some (conn_manager (handle_websocket_data (cfg0 5 false) 1%N s_idle).2 !! 1%N) ∧
  (handle_websocket_data (cfg0 5 false) 1%N s_late).1 = TimedOut ∧
  sent (handle_websocket_data (cfg0 5 false) 1%N s_late).2 =
    [(1%N, 1000, status_timeout)].
Proof. vm_compute. split_and!; [done|done|by eexists|done|done]. Qed.

Lemma C5_witness :
  (∃ s', control_iter (cfg0 5 false) 1%N 0 s_overdue = Ok Stop s' ∧
         sent s' = sent s_overdue ++ [(1%N, clock s_overdue, status_timeout)] ∧
         conn_manager s' = delete 1%N (conn_manager s_overdue)) ∧
  (∃ s', handle_websocket_data (cfg0 5 false) 1%N s_idle = (Suspended, s') ∧
         sent s' = sent s_idle ∧ conn_manager s' = conn_manager s_idle).
Proof.
  split.
  - edestruct (C5_timeout_checked_at_pass_start (cfg0 5 false) 1%N 0 s_overdue
                 (session [] None)) as (W & _ & _);
      [done|reflexivity|]. apply W. done.
  - edestruct (C5_timeout_checked_at_pass_start (cfg0 5 false) 1%N 0 s_idle
                 (session [] None)) as (_ & _ & W);
      [done|reflexivity|]. apply W. reflexivity.
Defined.

(** C6 on the code: with an empty cell the pass raises on
    [params.__dict__], before the test for [None] is reached; it does not
    sleep, and the generator ends with that exception (here for a
    generator that has not processed anything yet). *)
Lemma C6_empty_cell_raises :
  generate_iter (cfg0 0 false) 1%N chrome ∅ (s_stream 0 None) =
    Raised AttributeError
      (with_sent (λ l, l ++ [(1%N, 0, status_send_frame)]) (s_stream 0 None)) ∧
  (generate 3 (cfg0 0 false) 1%N chrome (s_stream 0 None)).1 =
    ([], [], Some AttributeError).
Proof. split; vm_compute; reflexivity. Qed.


Lemma C8_witness :
  ∃ s',
    generate_iter (cfg0 0 true) 1%N chrome ∅ (s_stream 13 (Some cat)) =
      Ok {| t_last_params := cat; t_invoked := [cat]; t_frames := [];
            t_slept := false; t_raised := None |}
         s' ∧
    modulation s' = modulation (s_stream 13 (Some cat)) ∧
    last_diffusion (acid_processor (modulation s')) =
      last_diffusion (acid_processor (modulation (s_stream 13 (Some cat)))) ∧
    conn_manager s' = conn_manager (s_stream 13 (Some cat)) ∧
    pipeline s' = 14 ∧
    ∀ fuel,
      generate (S fuel) (cfg0 0 true) 1%N chrome (s_stream 13 (Some cat)) =
        let '(frames, invoked, e, s'') :=
          generate_loop fuel (cfg0 0 true) 1%N chrome cat s' in
        (frames, cat :: invoked, e, s'').
Proof.
  apply (C8_flagged_result_is_suppressed (cfg0 0 true) 1%N chrome ∅
           (s_stream 13 (Some cat)) (session [] (Some cat)) cat 14 (Some [13])
           (Some [13]));
    [reflexivity|reflexivity|reflexivity|vm_compute; reflexivity|reflexivity..].
Defined.

Lemma C10_witness :
  (∀ last_time (s0 s' : @State (collaborators true)),
     control_iter (cfg0 0 false) 1%N last_time s0 ≠ Ok Stop s') ∧
  (handle_websocket_data (cfg0 0 false) 1%N s_late).1 ≠ TimedOut ∧
  sent_grows (λ msg, msg ≠ status_timeout) s_late
    (handle_websocket_data (cfg0 0 false) 1%N s_late).2.
Proof.
  apply (C10_no_timeout_when_disabled (cfg0 0 false) 1%N s_late). done.
Defined.


(** * The further properties on the stand-in collaborators *)

Lemma acid_disabled_witness :
  (∀ last_time, keeps_modulation (@control_iter (collaborators true) cfg_plain 1%N last_time)) ∧
  (∀ headers last_params,
     keeps_modulation (@generate_iter (collaborators true) cfg_plain 1%N headers last_params)).
Proof. apply (acid_disabled_modulation_untouched cfg_plain 1%N). reflexivity. Defined.

Lemma unknown_keys_witness :
  fuse (cfg0 0 false) (update_msg (Some misspelt)) (modulation0 true false) =
    (modulation0 true false, update_msg None).
Proof.
  apply (fuse_unknown_keys_ignored (cfg0 0 false) (update_msg (Some misspelt)) misspelt
           (modulation0 true false)); [reflexivity|reflexivity|].
  repeat (constructor; [reflexivity|]). constructor.
Defined.

Lemma null_bins_witness :
  resolved_zoom_is (cfg0 0 false) 1%N 0 s_null_bins (PNum 1).
Proof.
  edestruct (null_bins_freeze_zoom (cfg0 0 false) 1%N 0 s_null_bins
               (session [(1, next_frame); (2, update (Some null_bins)); (3, Binary [9])]
                        None)
               1 next_frame_msg 2 (update_msg (Some null_bins)) [(3, Binary [9])]
               null_bins) as [W _]; [reflexivity..|exact W].
Defined.

Lemma shift_witness :
  x_shift (acid_processor
             (modulation (final_state (control_iter (cfg0 0 false) 1%N 0 s_shift)))) =
    PNum 7 ∧
  y_shift (acid_processor
             (modulation (final_state (control_iter (cfg0 0 false) 1%N 0 s_shift)))) =
    PNum (-3).
Proof.
  edestruct (shift_resolution (cfg0 0 false) 1%N 0 s_shift
               (session [(1, next_frame); (2, update (Some direct_shift)); (3, Binary [9])]
                        None)
               1 next_frame_msg 2 (update_msg (Some direct_shift)) [(3, Binary [9])]
               direct_shift) as (Wx & _ & Wo); [reflexivity..|].
  split; [by apply Wx | by apply Wo].
Defined.

Lemma server_audio_witness :
  zoom_factor (acid_processor (apply_test_oscillations (cfg0 0 false) modulation_live)) =
    PNum 600000 ∧
  zoom_oscillator (apply_test_oscillations (cfg0 0 false) modulation_live) = (true, 6).
Proof.
  edestruct (server_audio_overrides_oscillator (cfg0 0 false) modulation_live)
    as [Wz Wo]; [reflexivity..|].
  split; [exact Wz | by apply Wo].
Defined.

Lemma other_status_witness :
  control_iter (cfg0 0 false) 1%N 0 s_late =
    Ok Next
      (@Build_State (collaborators true)
         (apply_test_oscillations (cfg0 0 false) (modulation s_late)) 0
         (<[1%N := session [] None]> (conn_manager s_late)) 1000 []).
Proof.
  apply (other_status_ignored (cfg0 0 false) 1%N 0 s_late (session [(1000, ping)] None)
           1000 {| fields := {["status" := PStr "ping"]}; acid_settings := None |} []
           (PStr "ping")); [reflexivity..|done].
Defined.

Lemma missing_status_witness :
  ∃ s',
    handle_websocket_data (cfg0 0 false) 1%N s_no_status = (Crashed KeyError, s') ∧
    conn_manager s' = delete 1%N (conn_manager s_no_status) ∧
    sent s' = sent s_no_status ∧
    pipeline s' = pipeline s_no_status.
Proof.
  apply (missing_status_retires (cfg0 0 false) 1%N s_no_status
           (session [(1, Text (update_msg None)); (2, next_frame)] None) 1
           (update_msg None) [(2, next_frame)]); reflexivity.
Defined.

Lemma rejected_update_witness :
  ∃ s1,
    control_iter (cfg0 0 false) 1%N 0 s_rejected = Raised ValidationError s1 ∧
    zoom_factor (acid_processor (modulation s1)) = PNum 2 ∧
    sent s1 = [] ∧
    latest_data <$> conn_manager s1 !! 1%N = Some (Some cat).
Proof.
  edestruct (rejected_update_still_applies_settings (cfg0 0 false) 1%N 0 s_rejected
               (session [(1, next_frame); (2, Text no_prompt)] (Some cat))
               1 next_frame_msg 2 no_prompt [])
    as (s1 & W & Wm & Ws & Wl & _); [reflexivity..|].
  exists s1. split; [exact W|]. split; [by rewrite Wm|]. split; [exact Ws | exact Wl].
Defined.

Lemma update_without_image_witness :
  control_iter (cfg0 0 false) 1%N 0 s_text_mode =
    Ok Next
      (@Build_State (collaborators false) (modulation0 false false) 0
         {[ 1%N := session [(3, ping)] (Some cat) ]} 2 [(1%N, 2, status_wait)]).
Proof.
  rewrite (update_without_image (cfg0 0 false) 1%N 0 s_text_mode
             (session [(1, next_frame); (2, update None); (3, ping)]
                      (Some {["prompt" := PStr "old"]}))
             1 next_frame_msg 2 (update_msg None) [(3, ping)] cat);
    reflexivity.
Defined.


Lemma emitting_pass_witness :
  (∃ t s',
     generate_iter (cfg0 0 false) 1%N chrome ∅ (s_stream 0 (Some cat)) = Ok t s' ∧
     t_invoked t = [cat] ∧ t_frames t = [[0]; [0]] ∧ t_raised t = None ∧
     pipeline s' = 1 ∧
     last_diffusion (acid_processor (modulation s')) = Some [0]) ∧
  (∃ s', generate 3 (cfg0 0 false) 1%N anonymous (s_stream 0 (Some cat)) =
           ([[0]], [cat], Some KeyError, s') ∧
         pipeline s' = 1).
Proof.
  split.
  - destruct (emitting_pass (cfg0 0 false) 1%N chrome ∅ (s_stream 0 (Some cat))
                (session [] (Some cat)) cat 1 (Some [0]) [0])
      as (t & s' & E & _ & Hi & _ & Hf & Hp & Hm & _);
      [reflexivity|reflexivity|vm_compute; reflexivity|reflexivity|reflexivity|].
    vm_compute in Hf. injection Hf as Hf Hr.
    exists t, s'. split_and!; [exact E|exact Hi|exact Hf|exact Hr|exact Hp|].
    by rewrite Hm.
  - destruct (emitting_pass (cfg0 0 false) 1%N anonymous ∅ (s_stream 0 (Some cat))
                (session [] (Some cat)) cat 1 (Some [0]) [0])
      as (t & s' & _ & _ & _ & _ & _ & Hp & _ & _ & _ & Hloop);
      [reflexivity|reflexivity|vm_compute; reflexivity|reflexivity|reflexivity|].
    exists s'. split; [|exact Hp]. by apply (Hloop eq_refl 2%nat).
Defined.

Lemma suppressed_witness :
  ∃ tick1 s1,
    generate_iter (cfg0 0 true) 1%N chrome ∅ (s_stream 13 (Some cat)) = Ok tick1 s1 ∧
    t_frames tick1 = [] ∧ t_invoked tick1 = [cat] ∧ pipeline s1 = 14 ∧
    generate_iter (cfg0 0 true) 1%N chrome (t_last_params tick1) (s_stream 14 (Some cat)) =
      Ok {| t_last_params := cat; t_invoked := []; t_frames := [];
            t_slept := true; t_raised := None |}
         (with_clock (λ now, now + THROTTLE)
            (with_sent (λ l, l ++ [(1%N, clock (s_stream 14 (Some cat)), status_send_frame)])
               (s_stream 14 (Some cat)))).
Proof.
  apply (suppressed_parameters_are_not_retried (cfg0 0 true) 1%N chrome ∅
           (s_stream 13 (Some cat)) (session [] (Some cat)) cat 14 (Some [13])
           (s_stream 14 (Some cat)) (session [] (Some cat)));
    [reflexivity|reflexivity|vm_compute; reflexivity|reflexivity..].
Defined.

Lemma other_sessions_witness :
  conn_manager (handle_websocket_data (cfg0 0 false) 1%N s_two).2 !! 2%N =
    conn_manager s_two !! 2%N.
Proof. apply (other_sessions_survive (cfg0 0 false) 1%N 2%N s_two). done. Defined.

Lemma late_message_witness :
  ∃ s',
    handle_websocket_data (cfg0 5 false) 1%N s_late = (TimedOut, s') ∧
    sent s' = sent s_late ++ [(1%N, 1000, status_timeout)] ∧
    conn_manager s' = delete 1%N (conn_manager s_late) ∧
    modulation s' = apply_test_oscillations (cfg0 5 false) (modulation s_late).
Proof.
  apply (late_message_then_timeout (cfg0 5 false) 1%N s_late
           (session [(1000, ping)] None) 1000
           {| fields := {["status" := PStr "ping"]}; acid_settings := None |} []
           (PStr "ping")); [done|reflexivity|reflexivity|reflexivity|done|done].
Defined.

Lemma latest_update_witness :
  ∃ s' c1 c2,
    handle_websocket_data (cfg0 0 false) 1%N s_two_updates = (Suspended, s') ∧
    latest_data <$> conn_manager s' !! 1%N = Some (Some {["prompt" := PStr "a dog"]}) ∧
    sent s' = sent s_two_updates ++ [(1%N, c1, status_wait); (1%N, c2, status_wait)] ∧
    pipeline s' = pipeline s_two_updates ∧
    ∀ headers last_params, py_dict_eq {["prompt" := PStr "a dog"]} last_params = false →
      ∃ tick s'', generate_iter (cfg0 0 false) 1%N headers last_params s' = Ok tick s'' ∧
                  t_invoked tick = [{["prompt" := PStr "a dog"]}] ∧
                  pipeline s'' = pipeline s_two_updates + 1.
Proof.
  apply (latest_update_wins (cfg0 0 false) 1%N s_two_updates
           (session [(1, next_frame); (2, update None);
                     (3, next_frame); (4, Text update2)] None)
           1 next_frame_msg 2 (update_msg None) 3 next_frame_msg 4 update2 cat
           {["prompt" := PStr "a dog"]}); [done|reflexivity..].
Defined.

Lemma constant_cell_witness :
  ∃ frames s',
    generate_loop 7 (cfg0 0 false) 1%N firefox ∅ (s_stream 0 (Some cat)) =
      (frames, [cat], None, s') ∧
    pipeline s' = 1 ∧
    (length frames ≤ 2)%nat.
Proof.
  destruct (constant_cell_invoked_at_most_once (cfg0 0 false) 1%N firefox
              ∅ 7 (s_stream 0 (Some cat)) (session [] (Some cat)) cat)
    as (frames & e & s' & E & Hp & L & He); [reflexivity..|].
  assert (py_dict_eq cat ∅ = false) as Hne by (vm_compute; reflexivity).
  rewrite Hne in E, Hp. vm_compute in He. rewrite He in E.
  by exists frames, s'.
Defined.

Lemma endpoint_witness :
  conn_manager (websocket_endpoint (cfg0 0 false) 1 2%N [(1, next_frame)] s_idle).2 =
    delete 2%N (conn_manager s_idle).
Proof.
  apply (websocket_endpoint_leaves_no_session (cfg0 0 false) 1 2%N [(1, next_frame)] s_idle).
  vm_compute. discriminate.
Defined.
